(** * A development proxy that forwards API calls and serves static files

    Shallow embedding of [api/server.py] (class [ProxyHandler]) and
    [api/static_server.py] (class [CORSRequestHandler]).

    The handlers are written in a state-and-exception monad over the
    connection of one request: what the handler has buffered, what it has
    written to the client socket, the calls it made to the backend, and the
    unread part of the request body.  What the handlers print to the
    console is left out.  The Python runtime and the standard library
    ([str] methods, [os.path], [mimetypes], [http.server],
    [urllib.request]) are modelled from CPython 3.11 in the modules [Py],
    [Net] and [Mimetypes]. *)

From Stdlib Require Import ZArith NArith Lia Ascii String DecimalString.
From Stdlib Require Strings.Byte.
From stdpp Require Import base tactics option list strings gmap.
From Equations Require Import Equations.

Local Open Scope Z_scope.

(** ** The Python side: strings, paths, exceptions *)

Module Py.

(** A [str] holding Latin-1 text (the decoding [http.server] applies to the
    request line and headers), one [ascii] per code point. *)

(** [str.lower] on one Latin-1 code point: A-Z and the accented capitals
    0xC0-0xDE (the multiplication sign 0xD7 apart) move up by 32. *)
Definition lower_char (c : ascii) : ascii :=
  let n := N_of_ascii c in
  if (((65 <=? n) && (n <=? 90)) ||
      ((192 <=? n) && (n <=? 222) && negb (n =? 215)))%N
  then ascii_of_N (n + 32) else c.

Fixpoint lower (s : string) : string :=
  match s with
  | EmptyString => EmptyString
  | String c r => String (lower_char c) (lower r)
  end.

(** [s.startswith(p)] *)
Fixpoint startswith (p s : string) : bool :=
  match p, s with
  | EmptyString, _ => true
  | String a p', String b s' => if Ascii.eqb a b then startswith p' s' else false
  | String _ _, EmptyString => false
  end.

(** [s.endswith(c)] for a one-character [c] *)
Fixpoint endswith_char (c : ascii) (s : string) : bool :=
  match s with
  | EmptyString => false
  | String a EmptyString => Ascii.eqb a c
  | String _ r => endswith_char c r
  end.

(** [s.split(c)[0]]: the text before the first [c] (all of [s] without one) *)
Fixpoint split_first (c : ascii) (s : string) : string :=
  match s with
  | EmptyString => EmptyString
  | String a r => if Ascii.eqb a c then EmptyString else String a (split_first c r)
  end.

(** [s.lstrip(c)] for a one-character [c] *)
Fixpoint lstrip (c : ascii) (s : string) : string :=
  match s with
  | EmptyString => EmptyString
  | String a r => if Ascii.eqb a c then lstrip c r else s
  end.

(** [s.split(c)]: the pieces between occurrences of [c], empty ones kept *)
Fixpoint split (c : ascii) (s : string) : list string :=
  match s with
  | EmptyString => [EmptyString]
  | String a r =>
      if Ascii.eqb a c then EmptyString :: split c r
      else match split c r with
           | [] => [String a EmptyString]
           | h :: t => String a h :: t
           end
  end.

(** [str(n)] for a non-negative [int] *)
Definition str_of_nat (n : nat) : string :=
  NilEmpty.string_of_uint (Nat.to_uint n).

Definition str_of_Z (z : Z) : string :=
  NilEmpty.string_of_int (Z.to_int z).

(** [posixpath.join(a, b)] *)
Definition path_join (a b : string) : string :=
  if startswith "/" b then b
  else if (String.eqb a EmptyString || endswith_char "/" a)%bool then a +:+ b
  else a +:+ "/" +:+ b.

(** How the operating system walks a path (symbolic links apart): empty
    components and [.] stay in place, [..] climbs one directory and stays
    at the top when there is none.  The result is the list of directory
    names from the top down to the file. *)
Definition components (p : string) : list string :=
  filter (λ c, c ≠ EmptyString) (split "/" p).

Definition walk (stack : list string) (c : string) : list string :=
  if String.eqb c "." then stack
  else if String.eqb c ".." then removelast stack
  else stack ++ [c].

Definition resolve (p : string) : list string :=
  fold_left walk (components p) [].

(** Exceptions the handlers can meet.  All are subclasses of [Exception]. *)
Inductive exn : Type :=
| HTTPError (code : Z) (msg : string) (fp : list Byte.byte)
| URLError (reason : string)
| TimeoutError (msg : string)
| ConnectionResetError (msg : string)
| BrokenPipeError (msg : string)
| ValueError (msg : string)
| OverflowError (msg : string)
| MemoryError.

(** [str(e)] *)
Definition str_of_exn (e : exn) : string :=
  match e with
  | HTTPError code msg _ => "HTTP Error " +:+ str_of_Z code +:+ ": " +:+ msg
  | URLError reason => "<urlopen error " +:+ reason +:+ ">"
  | TimeoutError msg | ConnectionResetError msg
  | BrokenPipeError msg | ValueError msg | OverflowError msg => msg
  | MemoryError => EmptyString
  end.

(** The two exceptions a write meets when the peer has gone. *)
Definition client_gone (e : exn) : bool :=
  match e with
  | BrokenPipeError _ | ConnectionResetError _ => true
  | _ => false
  end.

End Py.

(** ** The network libraries: [http.server] and [urllib.request] *)

Module Net.
Import Py.

Abbreviation bytes := (list Byte.byte).

(** The request methods the handlers define a [do_] method for. *)
Inductive method : Type := GET | POST | PUT | DELETE | OPTIONS.

#[global] Instance method_eq_dec : EqDecision method.
Proof. solve_decision. Defined.

(** The parsed inbound request: [self.command], [self.path] and
    [self.headers.items()] (every header line, in order, repeats kept). *)
Record request : Type := Request {
  command : method;
  path : string;
  headers : list (string * string)
}.

(** [urllib.request.Request]: [headers] is a [dict]. *)
Record url_request : Type := UrlRequest {
  full_url : string;
  data : option bytes;
  req_method : method;
  req_headers : gmap string string
}.

(** What [urlopen] hands back on success: [response.status],
    [response.headers.items()] and [response.read()]. *)
Record http_response : Type := HttpResponse {
  status : Z;
  resp_headers : list (string * string);
  resp_body : bytes
}.

(** What the handler buffers and writes.  [send_response_only] and
    [send_header] append a [line] to [_headers_buffer]; [end_headers]
    writes the buffer (and the blank line) with one [wfile.write]. *)
Inductive line : Type :=
| StatusLine (code : Z) (message : option string)
| HeaderLine (keyword value : string).

Inductive write : Type :=
| Head (ls : list line)
| Chunk (b : bytes).

(** The connection of one request.  [peer = Some (n, e)]: the client takes
    [n] more writes, after which every [wfile.write] raises [e];
    [peer = None]: the client stays connected. *)
Record state : Type := State {
  hbuf : list line;
  wfile : list write;
  calls : list (url_request * Z);
  rfile : bytes;
  peer : option (nat * exn)
}.

Definition connect (body : bytes) (p : option (nat * exn)) : state :=
  State [] [] [] body p.

Inductive result (A : Type) : Type :=
| Ok (a : A)
| Raise (e : exn).
Arguments Ok {A} a.
Arguments Raise {A} e.

Definition M (A : Type) : Type := state → result A * state.

#[global] Instance M_ret : MRet M := λ A a s, (Ok a, s).
#[global] Instance M_bind : MBind M := λ A B f m s,
  match m s with
  | (Ok a, s') => f a s'
  | (Raise e, s') => (Raise e, s')
  end.

Definition raise {A} (e : exn) : M A := λ s, (Raise e, s).

(** [try: m  except ... as e: h e]; a handler that does not match the
    exception re-raises it with [raise]. *)
Definition try_except {A} (m : M A) (h : exn → M A) : M A := λ s,
  match m s with
  | (Raise e, s') => h e s'
  | r => r
  end.

Definition buffer (l : line) : M unit := λ '(State h w c r p),
  (Ok (), State (h ++ [l]) w c r p).

(** [self.wfile.write(...)] *)
Definition wfile_write (x : write) : M unit := λ '(State h w c r p),
  match p with
  | Some (O, e) => (Raise e, State h w c r p)
  | Some (S n, e) => (Ok (), State h (w ++ [x]) c r (Some (n, e)))
  | None => (Ok (), State h (w ++ [x]) c r None)
  end.

(** What the standard library and the machine bring that the repository
    does not set: [version_string()], [date_time_string()], the HTML page
    [send_error] renders from [error_message_format], UTF-8 encoded, and
    the limits a read of the request body runs into. *)
Record lib : Type := Lib {
  version_string : string;
  date_time_string : string;
  error_page : Z → string → bytes;
  (** [sys.maxsize], the largest [Py_ssize_t] *)
  maxsize : Z;
  (** the size of the header of a [bytes] object *)
  bytes_header : Z;
  (** the buffer sizes the process finds no memory for *)
  no_memory : Z → bool
}.

(** What [self.rfile.read(n)] raises before it takes anything from the
    connection, for [n > 0]: the size has to fit a [Py_ssize_t], and the
    buffered reader allocates the [n] bytes of the result at once. *)
Definition read_failure (L : lib) (n : Z) : option exn :=
  if maxsize L <? n
  then Some (OverflowError "cannot fit 'int' into an index-sized integer")
  else if maxsize L - bytes_header L <? n
  then Some (OverflowError "byte string is too large")
  else if no_memory L n then Some MemoryError
  else None.

(** [self.rfile.read(n)] for [n > 0]: the [n] bytes, or those that come
    before the client ends the body. *)
Definition rfile_read (L : lib) (n : Z) : M bytes := λ '(State h w c r p),
  match read_failure L n with
  | Some e => (Raise e, State h w c r p)
  | None => (Ok (take (Z.to_nat n) r), State h w c (drop (Z.to_nat n) r) p)
  end.

Section base_handler.
Context (L : lib).

Definition send_response_only (code : Z) (message : option string) : M unit :=
  buffer (StatusLine code message).

Definition send_header (keyword value : string) : M unit :=
  buffer (HeaderLine keyword value).

(** [send_response]: the status line, then [Server] and [Date]. *)
Definition send_response (code : Z) (message : option string) : M unit :=
  send_response_only code message;;
  send_header "Server" (version_string L);;
  send_header "Date" (date_time_string L).

(** [end_headers]: [flush_headers] writes the buffer, then empties it. *)
Definition end_headers : M unit := λ s,
  match wfile_write (Head (hbuf s)) s with
  | (Ok _, State _ w c r p) => (Ok (), State [] w c r p)
  | (Raise e, s') => (Raise e, s')
  end.

Definition no_body_status (code : Z) : bool :=
  (code =? 204) || (code =? 205) || (code =? 304).

(** [send_error(code, message)]; [self.command] is never [HEAD] here. *)
Definition send_error (code : Z) (message : string) : M unit :=
  send_response code (Some message);;
  send_header "Connection" "close";;
  if (200 <=? code) && negb (no_body_status code) then
    let body := error_page L code message in
    send_header "Content-Type" "text/html;charset=utf-8";;
    send_header "Content-Length" (str_of_nat (length body));;
    end_headers;;
    match body with
    | [] => mret ()
    | _ => wfile_write (Chunk body)
    end
  else end_headers.
End base_handler.

Definition inspect {A} (a : A) : {b : A | a = b} := a ↾ eq_refl.

(** The streaming loop of both servers, on the unread part [f] of the open
    file:
    [while True: chunk = f.read(size); if not chunk: break;
                 self.wfile.write(chunk)] *)
Equations? copy_chunks (size : nat) (f : bytes) (s : state)
  : result unit * state by wf (length f) lt :=
  copy_chunks size f s with inspect (take size f) := {
    | [] ↾ _ => (Ok (), s)
    | (b :: chunk) ↾ _ with wfile_write (Chunk (b :: chunk)) s := {
        | (Ok _, s') => copy_chunks size (drop size f) s'
        | (Raise e, s') => (Raise e, s') } }.
Proof.
  rewrite length_drop.
  destruct size, f; simpl in *; try discriminate; lia.
Qed.

(** [for x in l: body x] *)
Fixpoint for_each {A} (l : list A) (body : A → M unit) : M unit :=
  match l with
  | [] => mret ()
  | x :: r => body x;; for_each r body
  end.

(** *** [urllib.request] *)

(** [req.add_header(key, val)]: [self.headers[key.capitalize()] = val],
    with [str.capitalize] given. *)
Definition add_header (capitalize : string → string)
    (r : url_request) (key val : string) : url_request :=
  UrlRequest (full_url r) (data r) (req_method r)
             (<[capitalize key := val]> (req_headers r)).

(** How a call to the backend can fail below HTTP. *)
Inductive failure : Type :=
| Unreachable (reason : string)
| TimedOut
| ConnectionReset.

Definition exn_of_failure (f : failure) : exn :=
  match f with
  | Unreachable reason => URLError reason
  | TimedOut => TimeoutError "timed out"
  | ConnectionReset => ConnectionResetError "[Errno 104] Connection reset by peer"
  end.

(** The backend, seen from [urlopen]: the answer the call ends on (after
    any redirect the library follows), or the failure of the call. *)
Inductive exchange : Type :=
| Answered (reason : string) (r : http_response)
| Failed (f : failure).

(** [urllib.request.urlopen(req, timeout=t)]: [HTTPErrorProcessor] turns
    every answer outside 2xx into a raised [HTTPError]. *)
Definition urlopen (backend : url_request → exchange)
    (req : url_request) (timeout : Z) : M http_response := λ '(State h w c r p),
  let s' := State h w (c ++ [(req, timeout)]) r p in
  match backend req with
  | Answered reason r =>
      if (200 <=? status r) && (status r <? 300) then (Ok r, s')
      else (Raise (HTTPError (status r) reason (resp_body r)), s')
  | Failed f => (Raise (exn_of_failure f), s')
  end.

(** *** Reading a connection back *)

Definition lines_of (w : write) : list line :=
  match w with Head ls => ls | Chunk _ => [] end.

Definition chunk_of (w : write) : list bytes :=
  match w with Head _ => [] | Chunk b => [b] end.

(** Every line written to the client, in order. *)
Definition sent_lines (s : state) : list line := concat (map lines_of (wfile s)).

(** The body chunks written to the client, one per [wfile.write]. *)
Definition sent_chunks (s : state) : list bytes := concat (map chunk_of (wfile s)).

Definition sent_body (s : state) : bytes := concat (sent_chunks s).

Definition status_of (l : line) : list Z :=
  match l with StatusLine c _ => [c] | HeaderLine _ _ => [] end.

Definition header_of (l : line) : list (string * string) :=
  match l with StatusLine _ _ => [] | HeaderLine k v => [(k, v)] end.

Definition sent_status (s : state) : list Z := concat (map status_of (sent_lines s)).

Definition sent_headers (s : state) : list (string * string) :=
  concat (map header_of (sent_lines s)).

(** The status lines the handler produced, written or still buffered. *)
Definition attempted_status (s : state) : list Z :=
  sent_status s ++ concat (map status_of (hbuf s)).

Definition header_line (h : string * string) : line :=
  let '(k, v) := h in HeaderLine k v.

(** Header names compare without case. *)
Definition is_header (name : string) (h : string * string) : bool :=
  String.eqb (lower (fst h)) (lower name).

Definition count_header (name : string) (hs : list (string * string)) : nat :=
  length (filter (λ h, is_header name h = true) hs).

Definition header_values (name : string) (hs : list (string * string)) : list string :=
  map snd (filter (λ h, is_header name h = true) hs).

(** The peer once the headers are out: [None] when the write of the
    headers already fails. *)
Definition after_head (p : option (nat * exn)) : option (option (nat * exn)) :=
  match p with
  | None => Some None
  | Some (S j, e) => Some (Some (j, e))
  | Some (O, _) => None
  end.

(** A computation that makes no call to the backend and reads nothing of
    the request body. *)
Definition keeps {A} (m : M A) : Prop :=
  ∀ s, calls (m s).2 = calls s ∧ rfile (m s).2 = rfile s.

(** The chunks of one run of the streaming loop, one by one. *)
Record sliced (size : nat) (f : bytes) (p : option (nat * exn))
    (res : result unit) (cs : list bytes) (p' : option (nat * exn)) : Prop := {
  sliced_chunk : ∀ i ch, cs !! i = Some ch → ch = take size (drop (i * size) f);
  sliced_nonempty : Forall (λ ch : bytes, ch ≠ []) cs;
  sliced_done : res = Ok () → (length f ≤ length cs * size)%nat;
  sliced_budget : ∀ j e, p = Some (j, e) → res = Ok () →
                  (length cs ≤ j)%nat ∧ p' = Some ((j - length cs)%nat, e);
  sliced_connected : p = None → res = Ok () ∧ p' = None;
  sliced_raise : ∀ e, res = Raise e →
                 p = Some (length cs, e) ∧ (length cs * size < length f)%nat
}.

(** Each of the three CORS headers occurs [k] times in what was sent. *)
Definition cors_each (k : nat) (s : state) : Prop :=
  count_header "Access-Control-Allow-Origin" (sent_headers s) = k ∧
  count_header "Access-Control-Allow-Methods" (sent_headers s) = k ∧
  count_header "Access-Control-Allow-Headers" (sent_headers s) = k.


End Net.

(** ** [posixpath.splitext] and [mimetypes.guess_type] *)

Module Mimetypes.
Import Py.

(** [(s[:i], s[i:])] for [i = s.rfind(c)], [None] when [c] is not in [s] *)
Fixpoint rsplit (c : ascii) (s : string) : option (string * string) :=
  match s with
  | EmptyString => None
  | String a r =>
      match rsplit c r with
      | Some (b, e) => Some (String a b, e)
      | None => if Ascii.eqb a c then Some (EmptyString, s) else None
      end
  end.

Fixpoint contains (c : ascii) (s : string) : bool :=
  match s with
  | EmptyString => false
  | String a r => Ascii.eqb a c || contains c r
  end.

Fixpoint all_dots (s : string) : bool :=
  match s with
  | EmptyString => true
  | String a r => Ascii.eqb a "." && all_dots r
  end.

(** The part of [p] after its last [/] *)
Definition filename (p : string) : string :=
  match rsplit "/" p with
  | Some (_, String _ name) => name
  | Some (_, EmptyString) => EmptyString
  | None => p
  end.

(** [posixpath.splitext(p)]: split at the last dot when it lies in the file
    name and something other than dots comes before it. *)
Definition splitext (p : string) : string * string :=
  match rsplit "." p with
  | None => (p, EmptyString)
  | Some (root, ext) =>
      if contains "/" ext then (p, EmptyString)
      else if all_dots (filename root) then (p, EmptyString)
      else (root, ext)
  end.

(** The library's [suffix_map] and [encodings_map] *)
Definition suffix_map (ext : string) : option string :=
  if String.eqb ext ".svgz" then Some ".svg.gz"%string
  else if String.eqb ext ".tgz" then Some ".tar.gz"%string
  else if String.eqb ext ".taz" then Some ".tar.gz"%string
  else if String.eqb ext ".tz" then Some ".tar.gz"%string
  else if String.eqb ext ".tbz2" then Some ".tar.bz2"%string
  else if String.eqb ext ".txz" then Some ".tar.xz"%string
  else None.

Definition encodings_map (ext : string) : option string :=
  if String.eqb ext ".gz" then Some "gzip"%string
  else if String.eqb ext ".Z" then Some "compress"%string
  else if String.eqb ext ".bz2" then Some "bzip2"%string
  else if String.eqb ext ".xz" then Some "xz"%string
  else if String.eqb ext ".br" then Some "br"%string
  else None.

(** [while (ext_lower := ext.lower()) in suffix_map:
       base, ext = splitext(base + suffix_map[ext_lower])] *)
Fixpoint suffix_loop (fuel : nat) (base ext : string) : string * string :=
  match fuel with
  | O => (base, ext)
  | S k =>
      match suffix_map (lower ext) with
      | Some s => let '(b, e) := splitext (base +:+ s) in suffix_loop k b e
      | None => (base, ext)
      end
  end.

(** [mimetypes.add_type(type, ext)]: [types_map[True][ext] = type] *)
Definition add_type (type ext : string) (types_map : gmap string string)
  : gmap string string := <[ext := type]> types_map.

(** [mimetypes.guess_type(path)[0]] for a path that names no URL scheme
    (an absolute file path does not).  One turn of the suffix loop is all
    it ever takes, see [suffix_loop_exit]. *)
Definition guess_type (types_map : gmap string string) (path : string)
  : option string :=
  let '(base, ext) := splitext path in
  let '(base, ext) := suffix_loop 1 base ext in
  let '(base, ext) :=
    match encodings_map ext with
    | Some _ => splitext base
    | None => (base, ext)
    end in
  types_map !! lower ext.

(** *** Vocabulary of the specification: the type an extension names *)



(** What comes before the extension in a file name: no slash, and
    something other than dots. *)
Definition stem (s : string) : bool :=
  negb (contains "/" s) && negb (all_dots s).




End Mimetypes.

(** ** [api/server.py]: the proxy with static files *)

Module Server.
Import Py Net Mimetypes.

Definition PHP_PORT : Z := 8080.

(** What the process is started with and runs against. *)
Record world : Type := World {
  stdlib : lib;
  (** [os.path.dirname(os.path.abspath(__file__))] *)
  API_DIR : string;
  (** the table [mimetypes.init()] builds *)
  platform_types : gmap string string;
  (** the regular files of the disk, by path: [os.path.isfile],
      [os.path.getsize] and [open(..., 'rb')] *)
  files : string → option bytes;
  (** [int(s)] on a [str], [None] when it raises [ValueError] *)
  int_of_str : string → option Z;
  (** the message of that [ValueError] *)
  int_message : string → string;
  (** [str.capitalize] *)
  capitalize : string → string;
  (** the PHP server behind port [PHP_PORT] *)
  backend : url_request → exchange
}.

(** The Router of the specification, on the method and the path without
    its query string. *)
Inductive decision : Type := STATIC | PROXY.

Definition route (m : method) (path : string) : decision :=
  match m with
  | GET => if startswith "/uploads/" path then STATIC else PROXY
  | _ => PROXY
  end.

Section handler.
Context (W : world).

(** [__main__]: [mimetypes.init(); mimetypes.add_type('image/webp', '.webp')] *)
Definition types_map : gmap string string :=
  add_type "image/webp" ".webp" (platform_types W).

Definition send_cors_headers : M unit :=
  send_header "Access-Control-Allow-Origin" "*";;
  send_header "Access-Control-Allow-Methods" "GET, POST, PUT, DELETE, OPTIONS";;
  send_header "Access-Control-Allow-Headers" "*".

Definition do_OPTIONS : M unit :=
  send_response (stdlib W) 200 None;;
  send_cors_headers;;
  end_headers.

Definition CHUNK : nat := N.to_nat 8192.

Definition serve_static_file (path : string) : M unit :=
  let file_path := path_join (API_DIR W) (lstrip "/" path) in
  match files W file_path with
  | None => send_error (stdlib W) 404 "File not found"
  | Some content =>
      try_except
        (let content_type :=
           default "application/octet-stream"%string
                   (guess_type types_map file_path) in
         let file_size := length content in
         send_response (stdlib W) 200 None;;
         send_header "Content-Type" content_type;;
         send_header "Content-Length" (str_of_nat file_size);;
         send_cors_headers;;
         send_header "Cache-Control" "public, max-age=86400";;
         end_headers;;
         copy_chunks CHUNK content)
        (λ e, mret ())
  end.

(** [self.headers.get(name)]: the first header of that name *)
Definition headers_get (name : string) (hs : list (string * string))
  : option string := head (header_values name hs).

Definition not_forwarded (h : string) : bool :=
  String.eqb (lower h) "host" || String.eqb (lower h) "content-length".

Definition hop_by_hop (h : string) : bool :=
  String.eqb (lower h) "transfer-encoding" || String.eqb (lower h) "connection".

Definition is_cors (h : string) : bool :=
  startswith "access-control-" (lower h).

(** The body of [for header, value in self.headers.items()] *)
Definition forward_header (r : url_request) (h : string * string) : url_request :=
  let '(header, value) := h in
  if not_forwarded header then r
  else add_header (capitalize W) r header value.

(** The [Request] built from the inbound one and the body read. *)
Definition build_request (req : request) (body : option bytes) : url_request :=
  let url := ("http://127.0.0.1:" +:+ str_of_Z PHP_PORT +:+ path req)%string in
  fold_left forward_header (headers req) (UrlRequest url body (command req) ∅).

(** The body of [for header, value in response.headers.items()]: a
    hop-by-hop header is passed over, a CORS header of the backend meets
    [continue], any other header is sent on.  (The flag [cors_sent] the
    loop sets is never read.) *)
Definition relay_header (h : string * string) : M unit :=
  let '(header, value) := h in
  if hop_by_hop header then mret ()
  else if is_cors header then mret ()
  else send_header header value.

Definition proxy_to_php (req : request) : M unit :=
  try_except
    (content_length ←
       match headers_get "Content-Length" (headers req) with
       | None => mret 0
       | Some v =>
           match int_of_str W v with
           | Some n => mret n
           | None => raise (ValueError (int_message W v))
           end
       end;
     body ←
       (if 0 <? content_length
        then b ← rfile_read (stdlib W) content_length; mret (Some b)
        else mret None);
     response ← urlopen (backend W) (build_request req body) 30;
     send_response (stdlib W) (status response) None;;
     for_each (resp_headers response) relay_header;;
     send_cors_headers;;
     end_headers;;
     wfile_write (Chunk (resp_body response)))
    (λ e,
       match e with
       | HTTPError code _ fp =>
           send_response (stdlib W) code None;;
           send_cors_headers;;
           end_headers;;
           wfile_write (Chunk fp)
       | _ =>
           send_error (stdlib W) 502 ("Bad Gateway: " +:+ str_of_exn e)
       end).

Definition do_GET (req : request) : M unit :=
  let path := split_first "?" (path req) in
  if startswith "/uploads/" path then serve_static_file path
  else proxy_to_php req.

Definition do_POST (req : request) : M unit := proxy_to_php req.
Definition do_PUT (req : request) : M unit := proxy_to_php req.
Definition do_DELETE (req : request) : M unit := proxy_to_php req.

(** [handle_one_request]: [getattr(self, 'do_' + self.command)()] *)
Definition handle (req : request) : M unit :=
  match command req with
  | OPTIONS => do_OPTIONS
  | GET => do_GET req
  | POST => do_POST req
  | PUT => do_PUT req
  | DELETE => do_DELETE req
  end.

(** *** Vocabulary of the specification *)

(** The three headers of the CORS policy, as [send_cors_headers] sends
    them. *)
Definition cors_headers : list (string * string) :=
  [("Access-Control-Allow-Origin", "*");
   ("Access-Control-Allow-Methods", "GET, POST, PUT, DELETE, OPTIONS");
   ("Access-Control-Allow-Headers", "*")]%string.

(** The two headers [send_response] starts every response with. *)
Definition library_headers : list (string * string) :=
  [("Server", version_string (stdlib W));
   ("Date", date_time_string (stdlib W))]%string.

(** The headers [send_error] puts on its page. *)
Definition error_headers (code : Z) (message : string) : list (string * string) :=
  library_headers ++
  [("Connection", "close");
   ("Content-Type", "text/html;charset=utf-8");
   ("Content-Length", str_of_nat (length (error_page (stdlib W) code message)))]%string.

(** The file a static path names. *)
Definition file_location (path : string) : string :=
  path_join (API_DIR W) (lstrip "/" path).

(** The headers [serve_static_file] sends ahead of a file. *)
Definition file_headers (location : string) (content : bytes)
  : list (string * string) :=
  library_headers ++
  [("Content-Type",
    default "application/octet-stream"%string (guess_type types_map location));
   ("Content-Length", str_of_nat (length content))]%string ++
  cors_headers ++
  [("Cache-Control", "public, max-age=86400")]%string.

(** [int(self.headers.get('Content-Length', 0))], [None] when it raises *)
Definition declared_length (req : request) : option Z :=
  match headers_get "Content-Length" (headers req) with
  | None => Some 0
  | Some v => int_of_str W v
  end.

(** The exception the reading of a body of declared length [n] ends on:
    [self.rfile.read(n) if n > 0 else None] *)
Definition body_failure (n : Z) : option exn :=
  if 0 <? n then read_failure (stdlib W) n else None.

(** The body forwarded for a declared length [n], read from [body]. *)
Definition forwarded_body (n : Z) (body : bytes) : option bytes :=
  if 0 <? n then Some (take (Z.to_nat n) body) else None.

(** A backend header the proxy copies to the client. *)
Definition copied (h : string * string) : bool :=
  negb (hop_by_hop (fst h)) && negb (is_cors (fst h)).

(** The requests whose response goes out through [send_cors_headers]:
    preflights, static files that exist, and proxied calls the backend
    answered.  The others go out through [send_error]: a missing file, a
    body length that is no number or that cannot be read, a backend that
    fails. *)
Definition answered_with_cors (req : request) (body : bytes) : bool :=
  match command req with
  | OPTIONS => true
  | m =>
      match route m (split_first "?" (path req)) with
      | STATIC =>
          bool_decide (is_Some (files W (file_location (split_first "?" (path req)))))
      | PROXY =>
          match declared_length req with
          | None => false
          | Some n =>
              match body_failure n with
              | Some _ => false
              | None =>
                  match backend W (build_request req (forwarded_body n body)) with
                  | Answered _ _ => true
                  | Failed _ => false
                  end
              end
          end
      end
  end.
End handler.

(** The outbound request carries an inbound header: it has a header of
    that name, case apart, with that value. *)
Definition carries (r : url_request) (h : string * string) : Prop :=
  ∃ k, lower k = lower h.1 ∧ req_headers r !! k = Some h.2.

Definition dispatch (W : world) (d : decision) (req : request) : M unit :=
  match d with
  | STATIC => serve_static_file W (split_first "?" (path req))
  | PROXY => proxy_to_php W req
  end.

End Server.

(** ** [api/static_server.py]: the static file server *)

Module StaticServer.
Import Py Net Mimetypes.

Record world : Type := World {
  stdlib : lib;
  platform_types : gmap string string;
  (** the regular files of the disk, by path; nothing else on it opens *)
  files : string → option bytes;
  (** [os.path.isdir] *)
  isdir : string → bool;
  (** [translate_path] past the removal of the query string and of the
      fragment: the unquoting, [normpath], the join of the words onto
      [DIRECTORY], the trailing slash put back *)
  local_path : string → string;
  (** [urllib.parse.urlsplit(p).path] *)
  url_path : string → string;
  (** [urlunsplit] of the parts of [urlsplit(p)], with [/] added to the
      path *)
  with_slash : string → string;
  (** the page [list_directory] builds for a directory and a request
      path, encoded; [None] when [os.listdir] raises [OSError] *)
  listing : string → string → option bytes;
  (** [sys.getfilesystemencoding()] *)
  fs_encoding : string;
  (** [date_time_string(fs.st_mtime)] of a file *)
  last_modified : string → string;
  (** whether a value of [If-Modified-Since] parses to a date, in UTC or
      without zone, that is no earlier than the last modification of a
      file *)
  unchanged_since : string → string → bool
}.

(** [SimpleHTTPRequestHandler.extensions_map] *)
Definition extensions_map (ext : string) : option string :=
  if String.eqb ext ".gz" then Some "application/gzip"%string
  else if String.eqb ext ".Z" then Some "application/octet-stream"%string
  else if String.eqb ext ".bz2" then Some "application/x-bzip2"%string
  else if String.eqb ext ".xz" then Some "application/x-xz"%string
  else None.

(** [shutil.COPY_BUFSIZE] *)
Definition COPY_BUFSIZE : nat := N.to_nat 65536.

Section handler.
Context (W : world).

Definition types_map : gmap string string :=
  add_type "image/webp" ".webp" (platform_types W).

Definition CHUNK : nat := N.to_nat 65536.

(** [SimpleHTTPRequestHandler.translate_path], bound to [DIRECTORY] *)
Definition translate_path (p : string) : string :=
  local_path W (split_first "#" (split_first "?" p)).

(** *** [SimpleHTTPRequestHandler], which [do_GET] falls back on *)

(** [SimpleHTTPRequestHandler.guess_type] *)
Definition handler_guess_type (path : string) : string :=
  let '(base, ext) := splitext path in
  match extensions_map ext with
  | Some t => t
  | None =>
      match extensions_map (lower ext) with
      | Some t => t
      | None =>
          match guess_type types_map path with
          | Some (String c g) => String c g
          | _ => "application/octet-stream"%string
          end
      end
  end.

Definition list_directory (req : request) (path : string) : M (option bytes) :=
  match listing W path (Net.path req) with
  | None =>
      send_error (stdlib W) 404 "No permission to list directory";;
      mret None
  | Some encoded =>
      send_response (stdlib W) 200 None;;
      send_header "Content-type" ("text/html; charset=" +:+ fs_encoding W);;
      send_header "Content-Length" (str_of_nat (length encoded));;
      end_headers;;
      mret (Some encoded)
  end.

(** [send_head] from [ctype = self.guess_type(path)] on, for the path it
    has settled on. *)
Definition send_head_file (req : request) (path : string) : M (option bytes) :=
  let ctype := handler_guess_type path in
  if endswith_char "/" path then
    send_error (stdlib W) 404 "File not found";;
    mret None
  else
    match files W path with
    | None =>
        send_error (stdlib W) 404 "File not found";;
        mret None
    | Some content =>
        let fresh :=
          match Server.headers_get "If-Modified-Since" (headers req),
                Server.headers_get "If-None-Match" (headers req) with
          | Some ims, None => unchanged_since W ims path
          | _, _ => false
          end in
        if fresh then
          send_response (stdlib W) 304 None;;
          end_headers;;
          mret None
        else
          send_response (stdlib W) 200 None;;
          send_header "Content-type" ctype;;
          send_header "Content-Length" (str_of_nat (length content));;
          send_header "Last-Modified" (last_modified W path);;
          end_headers;;
          mret (Some content)
    end.

Definition send_head (req : request) : M (option bytes) :=
  let path := translate_path (Net.path req) in
  if isdir W path then
    if negb (endswith_char "/" (url_path W (Net.path req))) then
      send_response (stdlib W) 301 None;;
      send_header "Location" (with_slash W (Net.path req));;
      send_header "Content-Length" "0";;
      end_headers;;
      mret None
    else if bool_decide (is_Some (files W (path_join path "index.html"))) then
      send_head_file req (path_join path "index.html")
    else if bool_decide (is_Some (files W (path_join path "index.htm"))) then
      send_head_file req (path_join path "index.htm")
    else list_directory req path
  else send_head_file req path.

(** [copyfile]: [shutil.copyfileobj(source, outputfile)] *)
Definition copyfile (source : bytes) : M unit := copy_chunks COPY_BUFSIZE source.

(** [SimpleHTTPRequestHandler.do_GET] *)
Definition super_do_GET (req : request) : M unit :=
  f ← send_head req;
  match f with
  | Some source => copyfile source
  | None => mret ()
  end.

(** *** [CORSRequestHandler] *)

Definition do_GET (req : request) : M unit :=
  let path := translate_path (split_first "?" (path req)) in
  match files W path with
  | Some content =>
      let file_size := length content in
      let content_type :=
        default "application/octet-stream"%string (guess_type types_map path) in
      send_response (stdlib W) 200 None;;
      send_header "Content-Type" content_type;;
      send_header "Content-Length" (str_of_nat file_size);;
      send_header "Access-Control-Allow-Origin" "*";;
      send_header "Access-Control-Allow-Methods" "GET, OPTIONS";;
      send_header "Access-Control-Allow-Headers" "*";;
      send_header "Cache-Control" "public, max-age=86400";;
      send_header "Connection" "keep-alive";;
      end_headers;;
      try_except
        (copy_chunks CHUNK content)
        (λ e,
           match e with
           | BrokenPipeError _ | ConnectionResetError _ => mret ()
           | _ => raise e
           end)
  | None => super_do_GET req
  end.

Definition do_OPTIONS : M unit :=
  send_response (stdlib W) 200 None;;
  send_header "Access-Control-Allow-Origin" "*";;
  send_header "Access-Control-Allow-Methods" "GET, OPTIONS";;
  send_header "Access-Control-Allow-Headers" "*";;
  end_headers.

Definition cors_headers : list (string * string) :=
  [("Access-Control-Allow-Origin", "*");
   ("Access-Control-Allow-Methods", "GET, OPTIONS");
   ("Access-Control-Allow-Headers", "*")]%string.

Definition library_headers : list (string * string) :=
  [("Server", version_string (stdlib W));
   ("Date", date_time_string (stdlib W))]%string.

(** The headers [do_GET] sends ahead of a file. *)
Definition file_headers (location : string) (content : bytes)
  : list (string * string) :=
  library_headers ++
  [("Content-Type",
    default "application/octet-stream"%string (guess_type types_map location));
   ("Content-Length", str_of_nat (length content))]%string ++
  cors_headers ++
  [("Cache-Control", "public, max-age=86400");
   ("Connection", "keep-alive")]%string.
End handler.

End StaticServer.

(** ** A small installation to run the handlers on *)

Module Demo.
Import Py Net Mimetypes.

Definition page (code : Z) (message : string) : bytes :=
  list_byte_of_string ("<h1>" +:+ str_of_Z code +:+ "</h1><p>" +:+ message +:+ "</p>").

Definition stdlib : lib :=
  Lib "BaseHTTP/0.6 Python/3.11.2" "Wed, 04 Nov 2026 20:00:00 GMT" page
      (2 ^ 63 - 1) 33 (λ n, 2 ^ 32 <? n).

(** [str.capitalize] on ASCII text *)
Definition upper_char (c : ascii) : ascii :=
  let n := N_of_ascii c in
  if ((97 <=? n) && (n <=? 122))%N then ascii_of_N (n - 32) else c.

Definition capitalize (s : string) : string :=
  match s with
  | EmptyString => EmptyString
  | String c r => String (upper_char c) (lower r)
  end.

(** [int] on a plain run of decimal digits *)
Definition int_of_str (s : string) : option Z :=
  match NilZero.uint_of_string s with
  | Some u => Some (Z.of_N (N.of_uint u))
  | None => None
  end.

Definition int_message (s : string) : string :=
  "invalid literal for int() with base 10: '" +:+ s +:+ "'".

Definition car1 : bytes := list_byte_of_string "RIFF....WEBPVP8 ".
Definition passwd : bytes := list_byte_of_string "root:x:0:0:root:/root:/bin/sh".

(** The disk, by resolved location: one upload under [/srv/api], and one
    file of the system outside it. *)
Definition disk (location : list string) : option bytes :=
  if decide (location = ["srv"; "api"; "uploads"; "car1.webp"]%string) then Some car1
  else if decide (location = ["srv"; "etc"; "passwd"]%string) then Some passwd
  else None.

Definition files (p : string) : option bytes := disk (resolve p).

Definition created : http_response :=
  HttpResponse 201
    [("Content-Type", "application/json");
     ("Access-Control-Allow-Origin", "http://localhost:3000");
     ("Connection", "close")]%string
    (list_byte_of_string "[1]").

Definition rejected : http_response :=
  HttpResponse 422 [("Content-Type", "application/json")]%string
    (list_byte_of_string "[0]").

(** A backend that creates cars, rejects trucks and is otherwise down. *)
Definition backend (r : url_request) : exchange :=
  if String.eqb (full_url r) "http://127.0.0.1:8080/api/cars"
  then Answered "Created" created
  else if String.eqb (full_url r) "http://127.0.0.1:8080/api/trucks"
  then Answered "Unprocessable Entity" rejected
  else Failed (Unreachable "[Errno 111] Connection refused").

Definition world : Server.world :=
  Server.World stdlib "/srv/api" ∅ files int_of_str int_message capitalize backend.

(** The directories of that disk. *)
Definition isdir (p : string) : bool :=
  bool_decide (resolve p ∈ [[]; ["srv"]; ["srv"; "api"]; ["srv"; "api"; "uploads"];
                            ["srv"; "api"; "uploads"; "cars"]; ["srv"; "etc"]]%string).

(** [urlsplit(p).path] for a request path that starts with one [/] *)
Definition url_path (p : string) : string :=
  split_first "?" (split_first "#" p).

Definition with_slash (p : string) : string :=
  let base := url_path p in
  base +:+ "/" +:+ substring (String.length base) (String.length p) p.

Definition listing (path self_path : string) : option bytes :=
  if isdir path
  then Some (list_byte_of_string ("<h1>Directory listing for " +:+ self_path +:+ "</h1>"))
  else None.

Definition static_world : StaticServer.world :=
  StaticServer.World stdlib ∅ files isdir (λ p, "/srv/api" +:+ p)
    url_path with_slash listing "utf-8"
    (λ _, "Wed, 04 Nov 2026 19:00:00 GMT"%string)
    (λ ims _, String.eqb ims "Wed, 04 Nov 2026 19:00:00 GMT").

End Demo.

(** * Facts *)

(** ** Strings and paths *)

Module PyFacts.
Import Py Mimetypes.

Lemma append_cons x (a b : string) : String x a +:+ b = String x (a +:+ b).
Proof. reflexivity. Qed.

Lemma append_assoc (a b c : string) : (a +:+ b) +:+ c = a +:+ (b +:+ c).
Proof. induction a as [|x a IH]; [done|]. by rewrite !append_cons, IH. Qed.

Lemma split_nonempty c s : split c s ≠ [].
Proof.
  destruct s as [|a s]; [done|]. cbn.
  destruct (Ascii.eqb a c); [done|]. by destruct (split c s).
Qed.

Lemma split_app c a b :
  split c (a +:+ String c b) = split c a ++ split c b.
Proof.
  induction a as [|x a IH].
  - change (EmptyString +:+ String c b) with (String c b). cbn.
    by rewrite Ascii.eqb_refl.
  - rewrite append_cons. cbn. destruct (Ascii.eqb x c); [by rewrite IH|].
    rewrite IH. pose proof (split_nonempty c a).
    by destruct (split c a).
Qed.

Lemma endswith_char_split c a :
  endswith_char c a = true → ∃ a', a = a' +:+ String c EmptyString.
Proof.
  induction a as [|x a IH]; [done|]. cbn. destruct a as [|y a].
  - intros ->%Ascii.eqb_eq. by exists EmptyString.
  - intros [a' ->]%IH. by exists (String x a').
Qed.

Lemma components_app a b :
  components (a +:+ String "/" b) = components a ++ components b.
Proof. unfold components. by rewrite split_app, filter_app. Qed.

Lemma startswith_lstrip c p :
  startswith (String c EmptyString) (lstrip c p) = false.
Proof.
  induction p as [|x p IH]; [done|]. cbn.
  destruct (Ascii.eqb x c) eqn:E; [done|]. cbn.
  rewrite Ascii.eqb_sym. by rewrite E.
Qed.

Lemma components_join a b :
  startswith "/" b = false →
  components (path_join a b) = components a ++ components b.
Proof.
  intros Hb. unfold path_join. rewrite Hb.
  destruct (String.eqb_spec a EmptyString) as [->|_]; [done|]. cbn [orb].
  destruct (endswith_char "/" a) eqn:E.
  - apply endswith_char_split in E as [a' ->].
    rewrite append_assoc. change (components (a' +:+ String "/" b) = components (a' +:+ String "/" EmptyString) ++ components b). rewrite !components_app.
    cbn. by rewrite app_nil_r.
  - apply components_app.
Qed.

Lemma walk_no_climb cs stack :
  ".."%string ∉ cs →
  fold_left walk cs stack = stack ++ filter (λ c, c ≠ "."%string) cs.
Proof.
  revert stack. induction cs as [|c cs IH]; intros stack Hcs.
  - by rewrite app_nil_r.
  - apply not_elem_of_cons in Hcs as [Hc Hcs]. cbn [fold_left].
    rewrite IH by done. rewrite filter_cons. unfold walk.
    destruct (String.eqb_spec c ".") as [->|Hdot].
    + by rewrite decide_False by (by intros []).
    + destruct (String.eqb_spec c "..") as [->|_]; [done|].
      rewrite decide_True by done. by rewrite <- app_assoc.
Qed.

Lemma components_lstrip p : components (lstrip "/" p) = components p.
Proof.
  induction p as [|a p IH]; [done|]. cbn [lstrip].
  destruct (Ascii.eqb_spec a "/") as [->|Ha]; [|done].
  rewrite IH. unfold components. cbn [split Ascii.eqb Bool.eqb].
  by rewrite filter_cons, decide_False by (by intros []).
Qed.

End PyFacts.

Module MimeFacts.
Import Py Mimetypes PyFacts.

Lemma rsplit_none c y : contains c y = false → rsplit c y = None.
Proof.
  induction y as [|a y IH]; [done|]. cbn.
  intros [Ha Hy]%orb_false_iff. by rewrite IH, Ha.
Qed.

Lemma rsplit_head c x b e : rsplit c x = Some (b, e) → ∃ e', e = String c e'.
Proof.
  revert b. induction x as [|a x IH]; [done|]. intros b. cbn.
  destruct (rsplit c x) as [[b' e']|].
  - intros [= <- <-]. by eapply IH.
  - destruct (Ascii.eqb_spec a c) as [->|]; [|done]. intros [= <- <-]. by eexists.
Qed.

Lemma rsplit_app c x y :
  contains c y = false →
  rsplit c (x +:+ y)
  = match rsplit c x with Some (b, e) => Some (b, e +:+ y) | None => None end.
Proof.
  intros Hy. induction x as [|a x IH].
  - by apply rsplit_none.
  - rewrite append_cons. cbn. rewrite IH.
    destruct (rsplit c x) as [[b e]|]; [done|]. by destruct (Ascii.eqb a c).
Qed.

Lemma rsplit_last c x e :
  contains c e = false → rsplit c (x +:+ String c e) = Some (x, String c e).
Proof.
  intros He. induction x as [|a x IH].
  - change (EmptyString +:+ String c e) with (String c e). cbn.
    by rewrite (rsplit_none _ _ He), Ascii.eqb_refl.
  - rewrite append_cons. cbn. by rewrite IH.
Qed.

Lemma all_dots_app a b : all_dots (a +:+ b) = all_dots a && all_dots b.
Proof.
  induction a as [|x a IH]; [done|]. rewrite append_cons. cbn.
  rewrite IH. by destruct (Ascii.eqb x ".").
Qed.

Lemma filename_app x y :
  contains "/" y = false → filename (x +:+ y) = filename x +:+ y.
Proof.
  intros Hy. unfold filename. rewrite rsplit_app by done.
  destruct (rsplit "/" x) as [[b e]|] eqn:E; [|done].
  by destruct (rsplit_head _ _ _ _ E) as [e' ->].
Qed.

Lemma splitext_ext x stem e :
  contains "." e = false → contains "/" e = false →
  contains "/" stem = false → all_dots stem = false →
  splitext ((x +:+ stem) +:+ String "." e) = (x +:+ stem, String "." e).
Proof.
  intros He1 He2 Hs1 Hs2. unfold splitext. rewrite rsplit_last by done.
  cbn [contains]. rewrite He2. cbn.
  rewrite filename_app, all_dots_app, Hs2 by done. by rewrite andb_false_r.
Qed.

Lemma splitext_alias base s stem e :
  s = stem +:+ String "." e →
  contains "." e = false → contains "/" e = false →
  contains "/" stem = false → all_dots stem = false →
  splitext (base +:+ s) = (base +:+ stem, String "." e).
Proof. intros -> ????. rewrite <- append_assoc. by apply splitext_ext. Qed.

(** One turn of the suffix loop leaves an extension that is no alias: the
    [while] of the library stops there. *)
Lemma suffix_loop_exit base ext :
  suffix_map (lower (suffix_loop 1 base ext).2) = None.
Proof.
  cbn [suffix_loop]. destruct (suffix_map (lower ext)) as [s|] eqn:E; [|exact E].
  unfold suffix_map in E.
  repeat (destruct (String.eqb _ _) in E; [injection E as <-|]); try done.
  - by rewrite (splitext_alias base _ ".svg" "gz").
  - by rewrite (splitext_alias base _ ".tar" "gz").
  - by rewrite (splitext_alias base _ ".tar" "gz").
  - by rewrite (splitext_alias base _ ".tar" "gz").
  - by rewrite (splitext_alias base _ ".tar" "bz2").
  - by rewrite (splitext_alias base _ ".tar" "xz").
Qed.

Lemma guess_type_webp types path root ext :
  splitext path = (root, ext) →
  lower ext = ".webp"%string →
  guess_type (add_type "image/webp" ".webp" types) path = Some "image/webp"%string.
Proof.
  intros Hp Hext. unfold guess_type. rewrite Hp. cbn [suffix_loop].
  rewrite Hext. cbn [suffix_map String.eqb Ascii.eqb Bool.eqb].
  assert (encodings_map ext = None) as ->.
  { unfold encodings_map.
    repeat match goal with
           | |- context [String.eqb ext ?l] =>
               destruct (String.eqb_spec ext l) as [->|_];
               [apply String.eqb_eq in Hext; by vm_compute in Hext|]
           end.
    done. }
  rewrite Hext. unfold add_type. by rewrite lookup_insert_eq.
Qed.

(** *** The type an extension names *)
















End MimeFacts.

(** ** The connection *)

Module NetFacts.
Import Py Net Mimetypes.

Lemma copy_chunks_step size f s :
  copy_chunks size f s =
  match take size f with
  | [] => (Ok (), s)
  | b :: c => match wfile_write (Chunk (b :: c)) s with
              | (Ok _, s') => copy_chunks size (drop size f) s'
              | (Raise e, s') => (Raise e, s')
              end
  end.
Proof.
  simp copy_chunks. unfold inspect.
  enough (H : ∀ l (e : take size f = l),
             copy_chunks_unfold_clause_1 size f (l ↾ e) s =
             match l with
             | [] => (Ok (), s)
             | b :: c => match wfile_write (Chunk (b :: c)) s with
                         | (Ok _, s') => copy_chunks size (drop size f) s'
                         | (Raise e, s') => (Raise e, s')
                         end
             end) by apply H.
  intros [|b c] e; simp copy_chunks; [done|].
  simpl. by destruct (wfile_write _ _) as [[]].
Qed.

(** What one run of the streaming loop leaves on the connection. *)
Record streamed (size : nat) (f : bytes) (p : option (nat * exn))
    (res : result unit) (cs : list bytes) (p' : option (nat * exn)) : Prop := {
  streamed_sizes : Forall (λ ch : bytes, ch ≠ [] ∧ (length ch ≤ size)%nat) cs;
  streamed_prefix : concat cs `prefix_of` f;
  streamed_all : res = Ok () → concat cs = f;
  streamed_connected : p = None → res = Ok () ∧ p' = None;
  streamed_raise : ∀ e, res = Raise e → ∃ k, p = Some (k, e) ∧ length cs = k
}.

Lemma copy_chunks_run size f h w c r p :
  (0 < size)%nat →
  ∃ res cs p',
    copy_chunks size f (State h w c r p)
    = (res, State h (w ++ map Chunk cs) c r p') ∧
    streamed size f p res cs p'.
Proof.
  intros Hsize. remember (length f) as n eqn:Hn.
  revert f w p Hn. induction n as [n IH] using lt_wf_ind. intros f w p ->.
  rewrite copy_chunks_step. destruct (take size f) as [|b ch] eqn:E.
  - exists (Ok ()), [], p. rewrite app_nil_r. split; [done|].
    assert (f = []) as -> by (destruct size, f; simpl in *; [lia|lia|done|done]).
    split; simpl; try done.
  - assert (Hlen : (length (drop size f) < length f)%nat).
    { rewrite length_drop. destruct size, f; simpl in *; try done; lia. }
    assert (Hch : (length (b :: ch) ≤ size)%nat).
    { rewrite <- E, length_take. lia. }
    assert (Hf : f = (b :: ch) ++ drop size f) by (by rewrite <- E, take_drop).
    destruct p as [[[|k] e]|]; cbn [wfile_write].
    + exists (Raise e), [], (Some (O, e)). rewrite app_nil_r. split; [done|].
      split; simpl; try done.
      * apply prefix_nil.
      * intros e' [= <-]. by exists O.
    + destruct (IH _ Hlen (drop size f) (w ++ [Chunk (b :: ch)]) (Some (k, e)) eq_refl)
        as (res & cs & p' & -> & [H1 H2 H3 H4 H5]).
      exists res, ((b :: ch) :: cs), p'. split.
      { by rewrite <- app_assoc. }
      split.
      * by constructor.
      * rewrite Hf. simpl. by apply prefix_cons, prefix_app.
      * intros ->. rewrite Hf. simpl. by rewrite H3.
      * done.
      * intros e' He'. destruct (H5 e' He') as (k' & [= -> ->] & Hk).
        exists (S k'). simpl. by rewrite Hk.
    + destruct (IH _ Hlen (drop size f) (w ++ [Chunk (b :: ch)]) None eq_refl)
        as (res & cs & p' & -> & [H1 H2 H3 H4 H5]).
      exists res, ((b :: ch) :: cs), p'. split.
      { by rewrite <- app_assoc. }
      split.
      * by constructor.
      * rewrite Hf. simpl. by apply prefix_cons, prefix_app.
      * intros ->. rewrite Hf. simpl. by rewrite H3.
      * done.
      * intros e' He'. by destruct (H5 e' He') as (k' & [=] & _).
Qed.

Lemma sent_chunks_stream h ls cs c r p :
  sent_chunks (State h (Head ls :: map Chunk cs) c r p) = cs.
Proof.
  unfold sent_chunks; cbn. induction cs as [|x cs IH]; [done|].
  cbn. by rewrite IH.
Qed.

Lemma sent_lines_stream h ls cs c r p :
  sent_lines (State h (Head ls :: map Chunk cs) c r p) = ls.
Proof.
  unfold sent_lines; cbn. induction cs as [|x cs IH]; cbn.
  - by rewrite app_nil_r.
  - done.
Qed.

End NetFacts.

Module ServerFacts.
Import Py Net Mimetypes NetFacts Server.

#[local] Arguments guess_type : simpl never.
#[local] Arguments path_join : simpl never.
#[local] Arguments lstrip : simpl never.
#[local] Arguments split_first : simpl never.
#[local] Arguments str_of_nat : simpl never.
#[local] Arguments str_of_Z : simpl never.
#[local] Arguments copy_chunks : simpl never.
#[local] Arguments CHUNK : simpl never.
#[local] Arguments is_cors : simpl never.
#[local] Arguments hop_by_hop : simpl never.
#[local] Arguments copied : simpl never.
#[local] Arguments not_forwarded : simpl never.

Ltac run :=
  repeat progress
    unfold handle, do_OPTIONS, do_GET, do_POST, do_PUT, do_DELETE,
      serve_static_file, send_error, send_cors_headers, no_body_status,
      send_response, send_response_only, send_header, end_headers,
      buffer, wfile_write, rfile_read, try_except, raise, urlopen, connect,
      mbind, M_bind, mret, M_ret;
  cbn.

Lemma CHUNK_pos : (0 < CHUNK)%nat.
Proof. unfold CHUNK. lia. Qed.

Lemma relay_headers_run hs h w c r p :
  for_each hs relay_header (State h w c r p)
  = (Ok (), State (h ++ map header_line (filter (λ x, copied x = true) hs)) w c r p).
Proof.
  revert h. induction hs as [|[k v] hs IH]; intros h.
  - by rewrite app_nil_r.
  - cbn [for_each]. unfold mbind, M_bind. rewrite filter_cons.
    unfold relay_header at 1.
    destruct (hop_by_hop k) eqn:Hh; [|destruct (is_cors k) eqn:Hc]; cbn;
      rewrite IH; case_decide as Hd; unfold copied in Hd; cbn [fst snd] in Hd;
      rewrite Hh, ?Hc in Hd; try done.
    by rewrite <- app_assoc.
Qed.

Lemma send_error_run W code msg w c r :
  code = 404 ∨ code = 502 →
  send_error (stdlib W) code msg (State [] w c r None)
  = (Ok (),
     State []
       (w ++ Head (StatusLine code (Some msg) :: map header_line (error_headers W code msg))
          :: match error_page (stdlib W) code msg with
             | [] => []
             | b => [Chunk b]
             end)
       c r None).
Proof.
  intros [-> | ->]; run; destruct (error_page _ _ _); by rewrite <- ?app_assoc.
Qed.

Lemma proxy_to_php_run W req body n :
  declared_length W req = Some n →
  body_failure W n = None →
  proxy_to_php W req (connect body None) =
  let r := build_request W req (forwarded_body n body) in
  let rest := if 0 <? n then drop (Z.to_nat n) body else body in
  match backend W r with
  | Answered reason resp =>
      (Ok (),
       State []
         [Head (StatusLine (status resp) None ::
                map header_line
                  (library_headers W ++
                   (if (200 <=? status resp) && (status resp <? 300)
                    then filter (λ x, copied x = true) (resp_headers resp)
                    else []) ++
                   cors_headers));
          Chunk (resp_body resp)]
         [(r, 30)] rest None)
  | Failed f =>
      send_error (stdlib W) 502
        ("Bad Gateway: " +:+ str_of_exn (exn_of_failure f))
        (State [] [] [(r, 30)] rest None)
  end.
Proof.
  unfold declared_length, forwarded_body, body_failure, proxy_to_php.
  intros Hn Hrd.
  assert (Hlen :
    match headers_get "Content-Length" (headers req) with
    | Some v => match int_of_str W v with
                | Some n => mret n
                | None => raise (ValueError (int_message W v))
                end
    | None => mret 0
    end = (mret n : M Z)).
  { destruct (headers_get _ _); [by rewrite Hn|by injection Hn as <-]. }
  rewrite Hlen. clear Hlen.
  unfold try_except, mbind, mret, M_bind, M_ret. cbn beta iota zeta.
  destruct (0 <? n); unfold connect, rfile_read, urlopen; cbn beta iota zeta;
    rewrite ?Hrd; cbn beta iota zeta;
    (destruct (backend W _) as [reason resp|f];
     [destruct ((200 <=? status resp) && (status resp <? 300))|]).
  all: try (run; by destruct f).
  all: try (unfold send_response, send_response_only, send_header, buffer,
            mbind, M_bind; cbn beta iota zeta; rewrite relay_headers_run; run;
            unfold library_headers, cors_headers;
            by rewrite !map_app, <- !app_assoc).
  all: try by run.
Qed.
Lemma forward_fields W hs r :
  let r' := fold_left (forward_header W) hs r in
  full_url r' = full_url r ∧ data r' = data r ∧ req_method r' = req_method r.
Proof.
  revert r. induction hs as [|[k v] hs IH]; intros r; [done|].
  cbn [fold_left]. destruct (IH (forward_header W r (k, v))) as (-> & -> & ->).
  unfold forward_header. by destruct (not_forwarded k).
Qed.

Lemma forward_headers W hs r key :
  req_headers (fold_left (forward_header W) hs r) !! key
  = match last (map snd (filter (λ h, capitalize W h.1 = key)
                           (filter (λ h, not_forwarded h.1 = false) hs))) with
    | Some v => Some v
    | None => req_headers r !! key
    end.
Proof.
  revert r. induction hs as [|[k v] hs IH]; intros r; [done|].
  cbn [fold_left]. rewrite IH. rewrite filter_cons. cbn [fst].
  unfold forward_header.
  destruct (not_forwarded k) eqn:Hk.
  - by rewrite decide_False by done.
  - rewrite decide_True by done. rewrite filter_cons. cbn [fst].
    destruct (decide (capitalize W k = key)) as [<-|Hne].
    + cbn [map snd]. rewrite last_cons.
      destruct (last _); [done|]. cbn. by rewrite lookup_insert_eq.
    + destruct (last _); [done|]. cbn. by rewrite lookup_insert_ne.
Qed.

Lemma build_request_fields W req body :
  full_url (build_request W req body)
  = ("http://127.0.0.1:8080" +:+ path req)%string ∧
  data (build_request W req body) = body ∧
  req_method (build_request W req body) = command req.
Proof.
  pose proof (forward_fields W (headers req)
    (UrlRequest ("http://127.0.0.1:" +:+ str_of_Z PHP_PORT +:+ path req) body (command req) ∅)) as H.
  exact H.
Qed.

Lemma build_request_headers W req body key :
  req_headers (build_request W req body) !! key
  = last (map snd (filter (λ h, capitalize W h.1 = key)
                     (filter (λ h, not_forwarded h.1 = false) (headers req)))).
Proof.
  pose proof (forward_headers W (headers req)
    (UrlRequest ("http://127.0.0.1:" +:+ str_of_Z PHP_PORT +:+ path req) body (command req) ∅) key) as H.
  cbn [req_headers] in H. rewrite lookup_empty in H.
  destruct (last _) eqn:E; exact H.
Qed.

Lemma headers_of_lines hs : concat (map header_of (map header_line hs)) = hs.
Proof. induction hs as [|[k v] hs IH]; [done|]. cbn. by rewrite IH. Qed.

Lemma statuses_of_lines hs : concat (map status_of (map header_line hs)) = [].
Proof. induction hs as [|[k v] hs IH]; [done|]. by cbn. Qed.

(** What a connection shows when one response went out: its status line
    and headers in one write, then the chunks of its body. *)
Lemma response_view h code msg hs cs c r p :
  let s := State h (Head (StatusLine code msg :: map header_line hs) :: map Chunk cs) c r p in
  sent_status s = [code] ∧ sent_headers s = hs ∧ sent_chunks s = cs.
Proof.
  cbn zeta. unfold sent_status, sent_headers.
  rewrite sent_lines_stream, sent_chunks_stream. cbn.
  by rewrite statuses_of_lines, headers_of_lines.
Qed.

Lemma count_header_app name hs1 hs2 :
  count_header name (hs1 ++ hs2) = (count_header name hs1 + count_header name hs2)%nat.
Proof. unfold count_header. by rewrite filter_app, length_app. Qed.

Lemma is_header_cors name h :
  is_cors name = true → is_header name h = true → is_cors h.1 = true.
Proof.
  unfold is_header, is_cors. intros Hname Hh%String.eqb_eq. by rewrite Hh.
Qed.

Lemma count_header_copied name hs :
  is_cors name = true →
  count_header name (filter (λ x, copied x = true) hs) = 0%nat.
Proof.
  intros Hname. unfold count_header. induction hs as [|h hs IH]; [done|].
  rewrite filter_cons. case_decide as Hc; [|done].
  rewrite filter_cons. rewrite decide_False; [done|].
  intros Hh. apply (is_header_cors _ _ Hname) in Hh.
  unfold copied in Hc. rewrite Hh in Hc. by rewrite andb_false_r in Hc.
Qed.

Lemma cors_once_relayed W hs :
  let sent := library_headers W ++ filter (λ x, copied x = true) hs ++ cors_headers in
  count_header "Access-Control-Allow-Origin" sent = 1%nat ∧
  count_header "Access-Control-Allow-Methods" sent = 1%nat ∧
  count_header "Access-Control-Allow-Headers" sent = 1%nat.
Proof.
  cbn zeta. rewrite !count_header_app, !count_header_copied by done. done.
Qed.

(** The response of the preflight. *)
Lemma do_OPTIONS_run W body :
  do_OPTIONS W (connect body None)
  = (Ok (),
     State [] [Head (StatusLine 200 None ::
                     map header_line (library_headers W ++ cors_headers))]
       [] body None).
Proof. by run. Qed.

Lemma serve_static_file_missing W path body :
  files W (file_location W path) = None →
  serve_static_file W path (connect body None)
  = (Ok (),
     State []
       (Head (StatusLine 404 (Some "File not found"%string) ::
              map header_line (error_headers W 404 "File not found"))
        :: match error_page (stdlib W) 404 "File not found" with
           | [] => []
           | b => [Chunk b]
           end)
       [] body None).
Proof.
  intros Hfile. unfold serve_static_file, file_location in *. rewrite Hfile.
  unfold connect. by rewrite send_error_run by auto.
Qed.

(** A file that exists, served to a client that may go away at any write. *)
Lemma serve_static_file_stream W path content body p :
  files W (file_location W path) = Some content →
  let out := serve_static_file W path (connect body p) in
  out.1 = Ok () ∧
  attempted_status out.2 = [200] ∧
  sent_body out.2 `prefix_of` content ∧
  Forall (λ ch : bytes, ch ≠ [] ∧ (length ch ≤ CHUNK)%nat) (sent_chunks out.2) ∧
  calls out.2 = [] ∧
  (p = None →
   sent_status out.2 = [200] ∧
   sent_headers out.2 = file_headers W (file_location W path) content ∧
   sent_body out.2 = content).
Proof.
  intros Hfile. unfold file_location in *. cbn zeta.
  unfold serve_static_file. rewrite Hfile.
  set (hs := file_headers W (path_join (API_DIR W) (lstrip "/" path)) content).
  destruct p as [[[|k] e]|].
  - run. split_and!; try done. apply prefix_nil.
  - run.
    match goal with |- context [copy_chunks ?n ?f (State ?h ?w ?c ?r ?p)] =>
      destruct (copy_chunks_run n f h w c r p CHUNK_pos)
        as (res & cs & p' & -> & [H1 H2 H3 H4 H5]) end.
    match goal with |- context [State [] (?w ++ map Chunk cs) ?c ?r ?p] =>
      change (State [] (w ++ map Chunk cs) c r p)
        with (State [] (Head (StatusLine 200 None :: map header_line hs)
                        :: map Chunk cs) c r p);
      pose proof (response_view [] 200 None hs cs c r p) as (V1 & V2 & V3)
    end.
    cbn zeta in V1, V2, V3.
    destruct res as [[]|e']; cbn [fst snd]; unfold attempted_status, sent_body;
      cbn [hbuf]; rewrite V1, V3; by split_and!.
  - run.
    match goal with |- context [copy_chunks ?n ?f (State ?h ?w ?c ?r ?p)] =>
      destruct (copy_chunks_run n f h w c r p CHUNK_pos)
        as (res & cs & p' & -> & [H1 H2 H3 H4 H5]) end.
    destruct (H4 eq_refl) as [-> ->].
    match goal with |- context [State [] (?w ++ map Chunk cs) ?c ?r ?p] =>
      change (State [] (w ++ map Chunk cs) c r p)
        with (State [] (Head (StatusLine 200 None :: map header_line hs)
                        :: map Chunk cs) c r p);
      pose proof (response_view [] 200 None hs cs c r p) as (V1 & V2 & V3)
    end.
    cbn zeta in V1, V2, V3. cbn [fst snd]. unfold attempted_status, sent_body.
    cbn [hbuf]. rewrite V1, V2, V3, H3 by done. by split_and!.
Qed.
Lemma handle_dispatch W req :
  command req ≠ OPTIONS →
  handle W req = dispatch W (route (command req) (split_first "?" (path req))) req.
Proof.
  intros Hm. unfold handle, do_GET, do_POST, do_PUT, do_DELETE, dispatch, route.
  destruct (command req); try done.
  by destruct (startswith _ _).
Qed.

Lemma handle_proxied W req :
  command req ≠ OPTIONS →
  route (command req) (split_first "?" (path req)) = PROXY →
  handle W req = proxy_to_php W req.
Proof. intros Hm Hr. by rewrite handle_dispatch, Hr. Qed.

Lemma send_error_view W code msg c r :
  code = 404 ∨ code = 502 →
  let out := send_error (stdlib W) code msg (State [] [] c r None) in
  out.1 = Ok () ∧
  sent_status out.2 = [code] ∧
  sent_headers out.2 = error_headers W code msg ∧
  sent_body out.2 = error_page (stdlib W) code msg ∧
  calls out.2 = c.
Proof.
  intros Hcode. cbn zeta. rewrite send_error_run by done. cbn [app fst snd].
  pose proof (response_view [] code (Some msg) (error_headers W code msg)
    (match error_page (stdlib W) code msg with [] => [] | b => [b] end) c r None)
    as (V1 & V2 & V3).
  cbn zeta in V1, V2, V3.
  assert (map Chunk (match error_page (stdlib W) code msg with [] => [] | b => [b] end)
          = match error_page (stdlib W) code msg with [] => [] | b => [Chunk b] end)
    as E by (by destruct (error_page _ _ _)).
  rewrite E in V1, V2, V3. unfold sent_body. rewrite V1, V2, V3.
  split_and!; try done. destruct (error_page _ _ _); [done|]. cbn. by rewrite app_nil_r.
Qed.

(** A proxied request the backend answered. *)
Lemma proxied_answered W req body n reason resp :
  declared_length W req = Some n →
  body_failure W n = None →
  let r := build_request W req (forwarded_body n body) in
  backend W r = Answered reason resp →
  let out := proxy_to_php W req (connect body None) in
  out.1 = Ok () ∧
  sent_status out.2 = [status resp] ∧
  sent_headers out.2
  = library_headers W ++
    (if (200 <=? status resp) && (status resp <? 300)
     then filter (λ x, copied x = true) (resp_headers resp) else []) ++
    cors_headers ∧
  sent_chunks out.2 = [resp_body resp] ∧
  calls out.2 = [(r, 30)].
Proof.
  intros Hn Hrd. cbn zeta. intros Hb. rewrite (proxy_to_php_run W req body n Hn Hrd).
  cbn zeta. rewrite Hb. cbn [fst snd].
  match goal with |- context [State [] [Head (_ :: map header_line ?hs); _] ?c ?r ?p] =>
    pose proof (response_view [] (status resp) None hs [resp_body resp] c r p)
      as (V1 & V2 & V3) end.
  cbn zeta in V1, V2, V3. by split_and!.
Qed.

(** A proxied request whose call to the backend failed. *)
Lemma proxied_failed W req body n f :
  declared_length W req = Some n →
  body_failure W n = None →
  let r := build_request W req (forwarded_body n body) in
  backend W r = Failed f →
  let msg := ("Bad Gateway: " +:+ str_of_exn (exn_of_failure f))%string in
  let out := proxy_to_php W req (connect body None) in
  out.1 = Ok () ∧
  sent_status out.2 = [502] ∧
  sent_headers out.2 = error_headers W 502 msg ∧
  sent_body out.2 = error_page (stdlib W) 502 msg ∧
  calls out.2 = [(r, 30)].
Proof.
  intros Hn Hrd. cbn zeta. intros Hb. rewrite (proxy_to_php_run W req body n Hn Hrd).
  cbn zeta. rewrite Hb. apply send_error_view. by right.
Qed.

Lemma send_error_rfile W code msg c r :
  code = 404 ∨ code = 502 →
  rfile (send_error (stdlib W) code msg (State [] [] c r None)).2 = r.
Proof. intros Hcode. by rewrite send_error_run. Qed.

(** What [rfile.read] raises is an [OverflowError] or a [MemoryError]. *)
Lemma read_failure_kind L n e :
  read_failure L n = Some e → (∃ msg, e = OverflowError msg) ∨ e = MemoryError.
Proof.
  unfold read_failure. repeat case_match; intros [= <-]; eauto.
Qed.

(** A proxied request whose body cannot be read: [rfile.read] raises
    before anything is taken from the connection, and no call is made. *)
Lemma proxied_unread W req body n e :
  declared_length W req = Some n →
  body_failure W n = Some e →
  let msg := ("Bad Gateway: " +:+ str_of_exn e)%string in
  let out := proxy_to_php W req (connect body None) in
  out.1 = Ok () ∧
  sent_status out.2 = [502] ∧
  sent_headers out.2 = error_headers W 502 msg ∧
  sent_body out.2 = error_page (stdlib W) 502 msg ∧
  calls out.2 = [] ∧
  rfile out.2 = body.
Proof.
  unfold declared_length, body_failure, proxy_to_php. intros Hn Hrd.
  assert (Hlen :
    match headers_get "Content-Length" (headers req) with
    | Some v => match int_of_str W v with
                | Some n => mret n
                | None => raise (ValueError (int_message W v))
                end
    | None => mret 0
    end = (mret n : M Z)).
  { destruct (headers_get _ _); [by rewrite Hn|by injection Hn as <-]. }
  rewrite Hlen. clear Hlen. cbn zeta.
  unfold try_except, mbind, mret, M_bind, M_ret. cbn beta iota zeta.
  destruct (0 <? n); [|done].
  unfold connect, rfile_read. cbn beta iota zeta. rewrite Hrd.
  destruct (send_error_view W 502 ("Bad Gateway: " +:+ str_of_exn e) [] body)
    as (H1 & H2 & H3 & H4 & H5); [by right|].
  pose proof (send_error_rfile W 502 ("Bad Gateway: " +:+ str_of_exn e) [] body
                ltac:(by right)) as H6.
  destruct (read_failure_kind _ _ _ Hrd) as [[msg ->]| ->]; cbn beta iota zeta.
  all: by split_and!.
Qed.

(** A proxied request whose [Content-Length] is no number: [int] raises
    before anything is read or sent. *)
Lemma proxied_malformed W req body :
  declared_length W req = None →
  ∃ v,
    headers_get "Content-Length" (headers req) = Some v ∧
    let msg := ("Bad Gateway: " +:+ int_message W v)%string in
    let out := proxy_to_php W req (connect body None) in
    out.1 = Ok () ∧
    sent_status out.2 = [502] ∧
    sent_headers out.2 = error_headers W 502 msg ∧
    sent_body out.2 = error_page (stdlib W) 502 msg ∧
    calls out.2 = [].
Proof.
  unfold declared_length, proxy_to_php.
  destruct (headers_get _ _) as [v|]; [|done]. intros Hv. exists v.
  split; [done|]. rewrite Hv. cbn zeta.
  unfold try_except, mbind, M_bind, raise, connect. cbn beta iota.
  apply (send_error_view W 502 ("Bad Gateway: " +:+ int_message W v) [] body).
  by right.
Qed.

Lemma cors_after_routing W req body :
  command req ≠ OPTIONS →
  cors_each
    (if match route (command req) (split_first "?" (path req)) with
        | STATIC =>
            bool_decide (is_Some (files W (file_location W (split_first "?" (path req)))))
        | PROXY =>
            match declared_length W req with
            | None => false
            | Some n =>
                match body_failure W n with
                | Some _ => false
                | None =>
                    match backend W (build_request W req (forwarded_body n body)) with
                    | Answered _ _ => true
                    | Failed _ => false
                    end
                end
            end
        end
     then 1 else 0)%nat
    (handle W req (connect body None)).2.
Proof.
  intros Hm. rewrite handle_dispatch by done.
  destruct (route _ _) eqn:Hr; cbn [dispatch].
  - destruct (files W _) as [content|] eqn:Hfile.
    + rewrite bool_decide_eq_true_2 by eauto.
      destruct (serve_static_file_stream W _ content body None Hfile)
        as (_ & _ & _ & _ & _ & H). destruct (H eq_refl) as (_ & H8 & _).
      unfold cors_each. by rewrite H8.
    + rewrite bool_decide_eq_false_2 by (by intros [? [=]]).
      rewrite (serve_static_file_missing W _ body Hfile).
      by destruct (error_page _ _ _).
  - destruct (declared_length W req) as [n|] eqn:Hn.
    + destruct (body_failure W n) as [e|] eqn:Hrd.
      { destruct (proxied_unread W req body n e Hn Hrd) as (_ & _ & H3 & _).
        unfold cors_each. by rewrite H3. }
      destruct (backend W _) as [reason resp|f] eqn:Hb.
      * destruct (proxied_answered W req body n reason resp Hn Hrd Hb)
          as (_ & _ & H3 & _). unfold cors_each. rewrite H3.
        destruct ((200 <=? status resp) && (status resp <? 300)).
        -- apply cors_once_relayed.
        -- done.
      * destruct (proxied_failed W req body n f Hn Hrd Hb) as (_ & _ & H3 & _).
        unfold cors_each. by rewrite H3.
    + destruct (proxied_malformed W req body Hn) as (v & _ & _ & _ & H3 & _).
      unfold cors_each. by rewrite H3.
Qed.

End ServerFacts.

(** ** The static file server *)

Module StaticFacts.
Import Py Net Mimetypes NetFacts ServerFacts StaticServer.

#[local] Arguments guess_type : simpl never.
#[local] Arguments str_of_nat : simpl never.
#[local] Arguments split_first : simpl never.
#[local] Arguments copy_chunks : simpl never.
#[local] Arguments CHUNK : simpl never.

Ltac run :=
  repeat progress
    unfold do_GET, do_OPTIONS,
      send_response, send_response_only, send_header, end_headers,
      buffer, wfile_write, try_except, raise, connect,
      mbind, M_bind, mret, M_ret;
  cbn.

Lemma static_CHUNK_pos : (0 < CHUNK)%nat.
Proof. unfold CHUNK. lia. Qed.

(** A file that exists, served to a client that stays or that goes away
    once the headers are out. *)
Lemma do_GET_stream W req body content p :
  let location := translate_path W (split_first "?" (path req)) in
  files W location = Some content →
  (p = None ∨ ∃ k e, p = Some (S k, e) ∧ client_gone e = true) →
  let out := do_GET W req (connect body p) in
  out.1 = Ok () ∧
  sent_status out.2 = [200] ∧
  attempted_status out.2 = [200] ∧
  sent_headers out.2 = file_headers W location content ∧
  sent_body out.2 `prefix_of` content ∧
  Forall (λ ch : bytes, ch ≠ [] ∧ (length ch ≤ CHUNK)%nat) (sent_chunks out.2) ∧
  (p = None → sent_body out.2 = content).
Proof.
  cbn zeta. intros Hfile Hp. unfold do_GET. rewrite Hfile.
  set (hs := file_headers W (translate_path W (split_first "?" (path req))) content).
  destruct Hp as [->|(k & e & -> & He)]; run.
  all: match goal with |- context [copy_chunks ?n ?f (State ?h ?w ?c ?r ?p)] =>
      destruct (copy_chunks_run n f h w c r p static_CHUNK_pos)
        as (res & cs & p' & -> & [H1 H2 H3 H4 H5]) end.
  all: match goal with |- context [State [] (?w ++ map Chunk ?cs) ?c ?r ?p] =>
      change (State [] (w ++ map Chunk cs) c r p)
        with (State [] (Head (StatusLine 200 None :: map header_line hs)
                        :: map Chunk cs) c r p);
      pose proof (response_view [] 200 None hs cs c r p) as (V1 & V2 & V3)
    end.
  all: cbn zeta in V1, V2, V3.
  - destruct (H4 eq_refl) as [-> ->]. cbn [fst snd].
    unfold sent_body, attempted_status. cbn [hbuf].
    rewrite V1, V2, V3, H3 by done. by split_and!.
  - destruct res as [[]|e'].
    + cbn [fst snd]. unfold sent_body, attempted_status. cbn [hbuf].
      rewrite V1, V2, V3. by split_and!.
    + destruct (H5 e' eq_refl) as (k' & [= -> ->] & _).
      destruct e'; try done; cbn [fst snd];
        unfold sent_body, attempted_status; cbn [hbuf];
        rewrite V1, V2, V3; by split_and!.
Qed.

End StaticFacts.

(** ** The library's handler behind the static file server *)

Module FallbackFacts.
Import Py Net Mimetypes PyFacts MimeFacts NetFacts ServerFacts StaticServer.



#[local] Arguments guess_type : simpl never.
#[local] Arguments handler_guess_type : simpl never.
#[local] Arguments str_of_nat : simpl never.
#[local] Arguments split_first : simpl never.
#[local] Arguments path_join : simpl never.
#[local] Arguments copy_chunks : simpl never.
#[local] Arguments CHUNK : simpl never.
#[local] Arguments COPY_BUFSIZE : simpl never.
#[local] Arguments translate_path : simpl never.






End FallbackFacts.

(** * The claims *)

Module Claims.
Import Py Net Mimetypes PyFacts MimeFacts NetFacts Server ServerFacts FallbackFacts.

(** ** C1: the CORS headers on every response *)

(** C1, as the code has it.  Each of [Access-Control-Allow-Origin],
    [Access-Control-Allow-Methods] and [Access-Control-Allow-Headers]
    occurs exactly once in the response to a preflight, to a static file
    that exists and to a proxied call the backend answered (with a
    success or with an error status, whatever CORS headers the backend
    set), and never twice.  It occurs zero times in the two responses
    that go out through [send_error]: the 404 of a missing static file
    and the 502 of a proxied call that failed. *)
Theorem cors_occurrences W req body :
  cors_each (if answered_with_cors W req body then 1 else 0)
    (handle W req (connect body None)).2.
Proof.
  destruct req as [m p hs]. unfold answered_with_cors.
  destruct m; cbn [command path];
    try (by apply (cors_after_routing W (Request _ p hs) body)).
  change (handle W (Request OPTIONS p hs)) with (do_OPTIONS W).
  by rewrite do_OPTIONS_run.
Qed.

(** The request of the specification's own scenario for a missing file:
    status 404, and none of the three headers. *)
Example missing_upload_without_cors :
  let out := handle Demo.world (Request GET "/uploads/missing.jpg" []) (connect [] None) in
  sent_status out.2 = [404] ∧ cors_each 0 out.2.
Proof. by vm_compute. Qed.

(** ** C2: what the proxy forwards and relays *)

(** C2 as stated fails: of two inbound headers with one name, the request
    handed to [urlopen] carries the value of the second only. *)
Lemma repeated_header_not_carried :
  ¬ ∀ W req body r t,
      calls (handle W req (connect body None)).2 = [(r, t)] →
      ∀ h, h ∈ headers req → not_forwarded h.1 = false → carries r h.
Proof.
  intros H.
  pose (req := Request POST "/api/cars" [("X-Trace", "a"); ("X-Trace", "b")]%string).
  destruct (proxied_answered Demo.world req [] 0 "Created" Demo.created
              eq_refl eq_refl eq_refl)
    as (_ & _ & _ & _ & Hcalls).
  rewrite <- (handle_proxied Demo.world req) in Hcalls by done.
  destruct (H Demo.world req [] _ _ Hcalls ("X-Trace", "a")%string)
    as (k & _ & Hk); [by left|done|].
  rewrite build_request_headers in Hk. cbn [headers req] in Hk.
  rewrite !filter_cons, filter_nil in Hk.
  cbn [fst] in Hk.
  rewrite !(decide_True (P := not_forwarded "X-Trace" = false)) in Hk by done.
  rewrite !filter_cons, filter_nil in Hk. cbn [fst] in Hk.
  destruct (decide (capitalize Demo.world "X-Trace" = k)); by cbn in Hk.
Qed.

(** C2, as the code has it.  For a request routed to PROXY whose
    [Content-Length], when present, is a number [n] that the reading of
    the body does not fail on: exactly one [Request] is handed to
    [urlopen], with a timeout of 30 seconds, the method of the inbound
    request, the URL of the fixed origin followed by the full path and
    query, and as body the first [n] bytes of the inbound body when
    [n > 0] (exactly [n] bytes when that many arrived) and no body
    otherwise.  The headers the handler sets on it are a dictionary keyed
    by the capitalised name: under each key it holds the value of the last
    inbound header, other than [Host] and [Content-Length], of that
    capitalised name, and nothing under any other key, so that of a name
    that occurs twice the earlier value is lost.  (The headers [urllib]
    adds or overrides when it sends the request, [Host], [Content-Length]
    and [Connection] among them, are not part of this statement.)  When
    the backend answers, the client receives the backend's status and
    body; the headers are those of the library ([Server], [Date]), then,
    for a 2xx answer, the backend's headers in order without
    [Transfer-Encoding], [Connection] and any
    [Access-Control-] header (for another status, none of the backend's
    headers), then the three CORS headers, each exactly once and last. *)
Theorem proxy_forwarding W req body n :
  command req ≠ OPTIONS →
  route (command req) (split_first "?" (path req)) = PROXY →
  declared_length W req = Some n →
  body_failure W n = None →
  let r := build_request W req (forwarded_body n body) in
  let out := handle W req (connect body None) in
  calls out.2 = [(r, 30)] ∧
  req_method r = command req ∧
  full_url r = ("http://127.0.0.1:8080" +:+ path req)%string ∧
  data r = (if 0 <? n then Some (take (Z.to_nat n) body) else None) ∧
  (∀ b, data r = Some b → (Z.to_nat n ≤ length body)%nat → Z.of_nat (length b) = n) ∧
  (∀ key,
     req_headers r !! key
     = last (map snd (filter (λ h, capitalize W h.1 = key)
                        (filter (λ h, not_forwarded h.1 = false) (headers req))))) ∧
  (∀ reason resp,
     backend W r = Answered reason resp →
     let kept :=
       if (200 <=? status resp) && (status resp <? 300)
       then filter (λ h, copied h = true) (resp_headers resp) else [] in
     sent_status out.2 = [status resp] ∧
     sent_body out.2 = resp_body resp ∧
     sent_headers out.2 = library_headers W ++ kept ++ cors_headers ∧
     Forall (λ h, hop_by_hop h.1 = false ∧ is_cors h.1 = false) kept ∧
     cors_each 1 out.2).
Proof.
  intros Hm Hr Hn Hrd. cbn zeta. rewrite handle_proxied by done.
  destruct (build_request_fields W req (forwarded_body n body)) as (F1 & F2 & F3).
  split_and!; try done.
  - destruct (backend W (build_request W req (forwarded_body n body)))
      as [reason resp|f] eqn:Hb.
    + by destruct (proxied_answered W req body n reason resp Hn Hrd Hb)
        as (_ & _ & _ & _ & ?).
    + by destruct (proxied_failed W req body n f Hn Hrd Hb) as (_ & _ & _ & _ & ?).
  - intros b. rewrite F2. unfold forwarded_body.
    destruct (0 <? n) eqn:E; [|done]. intros [= <-] Hlen.
    rewrite length_take. lia.
  - apply build_request_headers.
  - intros reason resp Hb.
    destruct (proxied_answered W req body n reason resp Hn Hrd Hb)
      as (_ & H2 & H3 & H4 & _).
    unfold sent_body, cors_each. rewrite H2, H3, H4.
    split_and!; try done.
    + cbn. by rewrite app_nil_r.
    + destruct (_ && _); [|done]. apply Forall_forall. intros h Hh.
      apply list_elem_of_filter in Hh as [Hh _]. unfold copied in Hh.
      apply andb_true_iff in Hh as [H5 H6].
      by destruct (hop_by_hop h.1), (is_cors h.1).
    + destruct (_ && _); [apply cors_once_relayed|done].
    + destruct (_ && _); [apply cors_once_relayed|done].
    + destruct (_ && _); [apply cors_once_relayed|done].
Qed.

Lemma proxy_forwarding_witness :
  let req := Request POST "/api/cars"
               [("Host", "localhost:8000"); ("Content-Length", "3");
                ("X-Trace", "a"); ("X-Trace", "b")]%string in
  let body := list_byte_of_string "[1]" in
  let r := build_request Demo.world req (Some body) in
  let out := handle Demo.world req (connect body None) in
  POST ≠ OPTIONS ∧
  route POST "/api/cars" = PROXY ∧
  declared_length Demo.world req = Some 3 ∧
  body_failure Demo.world 3 = None ∧
  calls out.2 = [(r, 30)] ∧
  req_headers r !! "X-trace"%string = Some "b"%string ∧
  sent_status out.2 = [201] ∧
  sent_body out.2 = resp_body Demo.created.
Proof.
  cbn zeta.
  pose proof (proxy_forwarding Demo.world
                (Request POST "/api/cars"
                   [("Host", "localhost:8000"); ("Content-Length", "3");
                    ("X-Trace", "a"); ("X-Trace", "b")]%string)
                (list_byte_of_string "[1]") 3 ltac:(done) eq_refl eq_refl eq_refl)
    as (H1 & _ & _ & _ & _ & H6 & H7).
  destruct (H7 "Created" Demo.created eq_refl) as (S1 & S2 & _).
  split_and!; [done..|exact H1|by rewrite H6|exact S1|exact S2].
Defined.

(** ** C3: a static file is served whole, a missing one is a 404 *)




(** ** C4: a backend that cannot be reached *)

(** C4, as the code has it.  When the body of the request, if it declares
    one, has been read and the call to the backend fails below HTTP
    (unreachable, timed out at the limit of 30 seconds, connection
    reset), the handler returns without raising and the response has
    status 502 and, as body, the error page of the library for the message
    [Bad Gateway: ] followed by the text of the exception.  Its headers are
    those [send_error] sets ([Server], [Date], [Connection],
    [Content-Type], [Content-Length]): none of the three CORS headers is
    among them. *)
Theorem bad_gateway_without_cors W req body n f :
  command req ≠ OPTIONS →
  route (command req) (split_first "?" (path req)) = PROXY →
  declared_length W req = Some n →
  body_failure W n = None →
  backend W (build_request W req (forwarded_body n body)) = Failed f →
  let msg := ("Bad Gateway: " +:+ str_of_exn (exn_of_failure f))%string in
  let out := handle W req (connect body None) in
  out.1 = Ok () ∧
  sent_status out.2 = [502] ∧
  sent_body out.2 = error_page (stdlib W) 502 msg ∧
  sent_headers out.2 = error_headers W 502 msg ∧
  cors_each 0 out.2.
Proof.
  intros Hm Hr Hn Hrd Hb. cbn zeta. rewrite handle_proxied by done.
  destruct (proxied_failed W req body n f Hn Hrd Hb) as (H1 & H2 & H3 & H4 & _).
  unfold cors_each. rewrite H3. by split_and!.
Qed.

Lemma bad_gateway_without_cors_witness :
  let req := Request POST "/api/bikes" [] in
  POST ≠ OPTIONS ∧
  route POST "/api/bikes" = PROXY ∧
  declared_length Demo.world req = Some 0 ∧
  body_failure Demo.world 0 = None ∧
  backend Demo.world (build_request Demo.world req (forwarded_body 0 []))
  = Failed (Unreachable "[Errno 111] Connection refused") ∧
  cors_each 0 (handle Demo.world req (connect [] None)).2.
Proof.
  cbn zeta. split_and!; [done..|].
  apply (bad_gateway_without_cors Demo.world (Request POST "/api/bikes" []) [] 0
           (Unreachable "[Errno 111] Connection refused")); done.
Defined.

(** ** C5: the routing decision *)

(** C5.  For every method that reaches the Router (every method but
    OPTIONS, which is answered before it) and every path, the handler
    runs the service the routing decision names, and that decision, a
    function of the method and of the path without its query string alone,
    is STATIC exactly when the method is GET and the path starts with
    [/uploads/], and PROXY exactly when not. *)
Theorem routing_decision W req :
  command req ≠ OPTIONS →
  let p := split_first "?" (path req) in
  handle W req = dispatch W (route (command req) p) req ∧
  (route (command req) p = STATIC
   ↔ command req = GET ∧ startswith "/uploads/" p = true) ∧
  (route (command req) p = PROXY
   ↔ ¬ (command req = GET ∧ startswith "/uploads/" p = true)).
Proof.
  intros Hm. cbn zeta. split; [by apply handle_dispatch|].
  unfold route. destruct (command req); try done;
    [destruct (startswith "/uploads/" (split_first "?" (path req)))|..];
    (split; intuition congruence).
Qed.

Lemma routing_decision_witness :
  GET ≠ OPTIONS ∧
  handle Demo.world (Request GET "/uploads/car1.webp?v=2" [])
  = serve_static_file Demo.world "/uploads/car1.webp".
Proof.
  split; [done|].
  apply (routing_decision Demo.world (Request GET "/uploads/car1.webp?v=2" [])).
  done.
Defined.

(** ** C6: the preflight *)

(** C6 as stated fails: the response to OPTIONS has a header, [Server],
    that is no CORS header. *)
Lemma options_has_library_headers :
  ¬ Forall (λ h, is_cors h.1 = true)
      (sent_headers (handle Demo.world (Request OPTIONS "/api/cars" []) (connect [] None)).2).
Proof. intros H. by apply Forall_inv in H. Qed.

(** C6, amended.  For every OPTIONS request, whatever its path, headers
    and body, both servers answer without consulting the Router, the disk
    or the backend: status 200, no body written, and as headers the two
    that the library's [send_response] puts on every response ([Server]
    and [Date]) followed by the three CORS headers and nothing else. *)
Theorem options_preflight W W' p hs body :
  let out := handle W (Request OPTIONS p hs) (connect body None) in
  let out' := StaticServer.do_OPTIONS W' (connect body None) in
  (out.1 = Ok () ∧
   sent_status out.2 = [200] ∧
   sent_chunks out.2 = [] ∧
   sent_headers out.2 = library_headers W ++ cors_headers ∧
   calls out.2 = [] ∧ rfile out.2 = body) ∧
  (out'.1 = Ok () ∧
   sent_status out'.2 = [200] ∧
   sent_chunks out'.2 = [] ∧
   sent_headers out'.2
   = StaticServer.library_headers W' ++ StaticServer.cors_headers).
Proof.
  cbn zeta. split.
  - change (handle W (Request OPTIONS p hs)) with (do_OPTIONS W).
    by rewrite do_OPTIONS_run.
  - done.
Qed.

(** ** C7: an error status of the backend *)

(** C7.  When the backend is reached (the body of the request, if it
    declares one, has been read) and answers a proxied request with a
    status outside 2xx (4xx and 5xx among them), the handler returns
    without raising and the client receives that status, the three CORS
    headers once each after the library's [Server] and [Date], and the
    body the backend sent, in one write: no error page of the proxy
    itself, and no 502 unless the backend's own status is 502. *)
Theorem backend_error_relayed W req body n reason resp :
  command req ≠ OPTIONS →
  route (command req) (split_first "?" (path req)) = PROXY →
  declared_length W req = Some n →
  body_failure W n = None →
  backend W (build_request W req (forwarded_body n body)) = Answered reason resp →
  ¬ (200 ≤ status resp < 300) →
  let out := handle W req (connect body None) in
  out.1 = Ok () ∧
  sent_status out.2 = [status resp] ∧
  sent_chunks out.2 = [resp_body resp] ∧
  sent_headers out.2 = library_headers W ++ cors_headers ∧
  cors_each 1 out.2.
Proof.
  intros Hm Hr Hn Hrd Hb Hs. cbn zeta. rewrite handle_proxied by done.
  destruct (proxied_answered W req body n reason resp Hn Hrd Hb)
    as (H1 & H2 & H3 & H4 & _).
  assert ((200 <=? status resp) && (status resp <? 300) = false) as E by lia.
  rewrite E in H3. unfold cors_each. rewrite H3.
  split_and!; try done.
Qed.

Lemma backend_error_relayed_witness :
  let req := Request POST "/api/trucks" [] in
  POST ≠ OPTIONS ∧
  route POST "/api/trucks" = PROXY ∧
  declared_length Demo.world req = Some 0 ∧
  body_failure Demo.world 0 = None ∧
  backend Demo.world (build_request Demo.world req (forwarded_body 0 []))
  = Answered "Unprocessable Entity" Demo.rejected ∧
  ¬ (200 ≤ status Demo.rejected < 300) ∧
  sent_status (handle Demo.world req (connect [] None)).2 = [422].
Proof.
  cbn zeta.
  assert (H : ¬ (200 ≤ status Demo.rejected < 300)) by (cbn; lia).
  split_and!; [done..|exact H|].
  apply (backend_error_relayed Demo.world (Request POST "/api/trucks" []) [] 0
           "Unprocessable Entity" Demo.rejected); done.
Defined.

(** ** C8: the location of a static file *)

(** C8 as stated fails: a path under [/uploads/] with [..] in it names a
    location outside the root, and the file there is served. *)
Lemma traversal_escapes_root :
  let path := "/uploads/../../etc/passwd"%string in
  let out := handle Demo.world (Request GET path []) (connect [] None) in
  startswith "/uploads/" path = true ∧
  ¬ resolve (API_DIR Demo.world) `prefix_of` resolve (file_location Demo.world path) ∧
  sent_status out.2 = [200] ∧
  sent_body out.2 = Demo.passwd.
Proof.
  cbn zeta. split_and!.
  - done.
  - apply (proj1 (bool_decide_eq_false _)). by vm_compute.
  - by vm_compute.
  - by vm_compute.
Qed.

(** C8, amended.  For every request path with no [..] component, the
    location computed by removing the leading separators and joining to
    the root lies under the root: it is the root followed by the
    components of the path, [.] left out.  (The code checks nothing: the
    confinement is that of the path itself.) *)
Theorem confined_without_climbing W path :
  ".."%string ∉ components path →
  resolve (file_location W path)
  = resolve (API_DIR W) ++ filter (λ c, c ≠ "."%string) (components path) ∧
  resolve (API_DIR W) `prefix_of` resolve (file_location W path).
Proof.
  intros Hp.
  assert (resolve (file_location W path)
          = resolve (API_DIR W) ++ filter (λ c, c ≠ "."%string) (components path)) as E.
  { unfold file_location, resolve.
    rewrite components_join by apply startswith_lstrip.
    rewrite fold_left_app, components_lstrip. by apply walk_no_climb. }
  split; [done|]. rewrite E. by apply prefix_app_r.
Qed.

Lemma confined_without_climbing_witness :
  (".."%string ∉ components "/uploads/./car1.webp") ∧
  resolve (file_location Demo.world "/uploads/./car1.webp")
  = ["srv"; "api"; "uploads"; "car1.webp"]%string.
Proof.
  assert (H : ".."%string ∉ components "/uploads/./car1.webp").
  { apply (proj1 (bool_decide_eq_false _)). by vm_compute. }
  split; [exact H|].
  exact (proj1 (confined_without_climbing Demo.world "/uploads/./car1.webp" H)).
Defined.

(** ** C9: how bodies are written *)

(** C9 as stated fails: no chunk size bounds the writes of the handler,
    since the body of a backend answer goes out in one write. *)
Lemma proxy_body_in_one_write :
  ¬ ∃ size : nat, ∀ W req body,
      Forall (λ ch : bytes, (length ch ≤ size)%nat)
             (sent_chunks (handle W req (connect body None)).2).
Proof.
  intros [size H].
  pose (resp := HttpResponse 200 [] (replicate (S size) Byte.x00)).
  pose (W := World Demo.stdlib "/srv/api" ∅ Demo.files Demo.int_of_str
               Demo.int_message Demo.capitalize (λ _, Answered "OK" resp)).
  specialize (H W (Request POST "/api/cars" []) []).
  rewrite handle_proxied in H by done.
  destruct (proxied_answered W (Request POST "/api/cars" []) [] 0 "OK" resp
              eq_refl eq_refl eq_refl) as (_ & _ & _ & H4 & _).
  rewrite H4 in H. apply Forall_inv in H. unfold resp in H.
  cbn [resp_body] in H. rewrite length_replicate in H. lia.
Qed.

(** C9, amended.  A static file goes out in chunks that are never empty
    and never longer than the chunk size of the server (8192 bytes in the
    proxy, 65536 in the static file server), read one at a time, and the
    chunks put together are the file.  The body of a backend answer (to
    a request whose own body, if it declares one, has been read) is read
    whole and goes out in a single write. *)
Theorem streaming_granularity W W' req body :
  let out := handle W req (connect body None) in
  let out' := StaticServer.do_GET W' req (connect body None) in
  (∀ content,
     command req = GET →
     startswith "/uploads/" (split_first "?" (path req)) = true →
     files W (file_location W (split_first "?" (path req))) = Some content →
     Forall (λ ch : bytes, ch ≠ [] ∧ (length ch ≤ CHUNK)%nat) (sent_chunks out.2) ∧
     concat (sent_chunks out.2) = content) ∧
  (∀ content,
     StaticServer.files W'
       (StaticServer.translate_path W' (split_first "?" (path req))) = Some content →
     Forall (λ ch : bytes, ch ≠ [] ∧ (length ch ≤ StaticServer.CHUNK)%nat)
            (sent_chunks out'.2) ∧
     concat (sent_chunks out'.2) = content) ∧
  (∀ n reason resp,
     command req ≠ OPTIONS →
     route (command req) (split_first "?" (path req)) = PROXY →
     declared_length W req = Some n →
     body_failure W n = None →
     backend W (build_request W req (forwarded_body n body)) = Answered reason resp →
     sent_chunks out.2 = [resp_body resp]).
Proof.
  cbn zeta. split_and!.
  - intros content Hm Hp Hfile. unfold handle, do_GET. rewrite Hm, Hp.
    destruct (serve_static_file_stream W _ content body None Hfile)
      as (_ & _ & _ & H4 & _ & H6). destruct (H6 eq_refl) as (_ & _ & H9). done.
  - intros content Hfile.
    destruct (StaticFacts.do_GET_stream W' req body content None Hfile)
      as (_ & _ & _ & _ & _ & H5 & H6); [by left|]. split; [done|]. by apply H6.
  - intros n reason resp Hm Hr Hn Hrd Hb. rewrite handle_proxied by done.
    by destruct (proxied_answered W req body n reason resp Hn Hrd Hb)
      as (_ & _ & _ & H4 & _).
Qed.

Lemma streaming_granularity_witness :
  let req := Request GET "/uploads/car1.webp" [] in
  command req = GET ∧
  startswith "/uploads/" (split_first "?" (path req)) = true ∧
  files Demo.world (file_location Demo.world "/uploads/car1.webp") = Some Demo.car1 ∧
  concat (sent_chunks (handle Demo.world req (connect [] None)).2) = Demo.car1.
Proof.
  cbn zeta. split_and!; [done..|].
  apply (streaming_granularity Demo.world Demo.static_world
           (Request GET "/uploads/car1.webp" []) []); done.
Defined.

(** ** C10: a client that goes away *)

(** C10.  When the client closes the connection while a static file that
    exists is being sent, after any number of writes, the handler of
    either server returns without raising; the only status line it ever
    produced is the 200 of the file, so that no error response is
    attempted; and what the client received of the body is a prefix of the
    file. *)
Theorem client_disconnect_swallowed W W' req body content content' k e :
  command req = GET →
  startswith "/uploads/" (split_first "?" (path req)) = true →
  files W (file_location W (split_first "?" (path req))) = Some content →
  StaticServer.files W'
    (StaticServer.translate_path W' (split_first "?" (path req))) = Some content' →
  client_gone e = true →
  let out := handle W req (connect body (Some (k, e))) in
  let out' := StaticServer.do_GET W' req (connect body (Some (S k, e))) in
  (out.1 = Ok () ∧
   attempted_status out.2 = [200] ∧
   sent_body out.2 `prefix_of` content) ∧
  (out'.1 = Ok () ∧
   attempted_status out'.2 = [200] ∧
   sent_body out'.2 `prefix_of` content').
Proof.
  intros Hm Hp Hfile Hfile' He. cbn zeta. split.
  - unfold handle, do_GET. rewrite Hm, Hp.
    by destruct (serve_static_file_stream W _ content body (Some (k, e)) Hfile)
      as (? & ? & ? & _).
  - by destruct (StaticFacts.do_GET_stream W' req body content' (Some (S k, e)) Hfile')
      as (? & _ & ? & _ & ? & _); [eauto|].
Qed.

Lemma client_disconnect_swallowed_witness :
  let req := Request GET "/uploads/car1.webp" [] in
  let e := BrokenPipeError "[Errno 32] Broken pipe" in
  command req = GET ∧
  startswith "/uploads/" (split_first "?" (path req)) = true ∧
  Server.files Demo.world (file_location Demo.world "/uploads/car1.webp") = Some Demo.car1 ∧
  StaticServer.files Demo.static_world
    (StaticServer.translate_path Demo.static_world "/uploads/car1.webp") = Some Demo.car1 ∧
  client_gone e = true ∧
  (handle Demo.world req (connect [] (Some (1%nat, e)))).1 = Ok () ∧
  (StaticServer.do_GET Demo.static_world req (connect [] (Some (2%nat, e)))).1 = Ok ().
Proof.
  cbn zeta. split_and!; [done..| |].
  - apply (client_disconnect_swallowed Demo.world Demo.static_world
             (Request GET "/uploads/car1.webp" []) [] Demo.car1 Demo.car1 1
             (BrokenPipeError "[Errno 32] Broken pipe")); done.
  - apply (client_disconnect_swallowed Demo.world Demo.static_world
             (Request GET "/uploads/car1.webp" []) [] Demo.car1 Demo.car1 1
             (BrokenPipeError "[Errno 32] Broken pipe")); done.
Defined.

End Claims.

(** * Further properties of the handlers *)

(** ** The streaming loop, chunk by chunk *)

Module StreamFacts.
Import Py Net Mimetypes PyFacts MimeFacts NetFacts Server ServerFacts.


Lemma copy_chunks_sliced size f h w c r p :
  (0 < size)%nat →
  ∃ res cs p',
    copy_chunks size f (State h w c r p)
    = (res, State h (w ++ map Chunk cs) c r p') ∧
    sliced size f p res cs p'.
Proof.
  intros Hsize. remember (length f) as n eqn:Hn.
  revert f w p Hn. induction n as [n IH] using lt_wf_ind. intros f w p ->.
  rewrite copy_chunks_step. destruct (take size f) as [|b ch] eqn:E.
  - exists (Ok ()), [], p. rewrite app_nil_r. split; [done|].
    assert (f = []) as -> by (destruct size, f; simpl in *; [lia|lia|done|done]).
    split; simpl; try done.
    intros j e -> _. split; [lia|]. by rewrite Nat.sub_0_r.
  - assert (Hlen : (length (drop size f) < length f)%nat).
    { rewrite length_drop. destruct size, f; simpl in *; try done; lia. }
    assert (Hpos : (0 < length f)%nat) by lia.
    destruct p as [[[|k] e]|]; cbn [wfile_write].
    + exists (Raise e), [], (Some (O, e)). rewrite app_nil_r. split; [done|].
      split; simpl; try done.
      intros e' [= <-]. split; [done|lia].
    + destruct (IH _ Hlen (drop size f) (w ++ [Chunk (b :: ch)]) (Some (k, e)) eq_refl)
        as (res & cs & p' & -> & [H1 H2 H3 H4 H5 H6]).
      exists res, ((b :: ch) :: cs), p'. split.
      { by rewrite <- app_assoc. }
      rewrite length_drop in H3, H6.
      split.
      * intros [|i] ch' Hi; cbn in Hi.
        -- injection Hi as <-. by rewrite Nat.mul_0_l, drop_0.
        -- rewrite (H1 i ch' Hi), drop_drop. repeat f_equal; lia.
      * by constructor.
      * intros Hr. specialize (H3 Hr). cbn [length]. lia.
      * intros j e' [= <- <-] Hr. destruct (H4 k e eq_refl Hr) as [Hk ->].
        cbn [length]. split; [lia|]. repeat f_equal; lia.
      * done.
      * intros e' Hr. destruct (H6 e' Hr) as [[= -> ->] Hlt].
        cbn [length]. split; [done|]. lia.
    + destruct (IH _ Hlen (drop size f) (w ++ [Chunk (b :: ch)]) None eq_refl)
        as (res & cs & p' & -> & [H1 H2 H3 H4 H5 H6]).
      exists res, ((b :: ch) :: cs), p'. split.
      { by rewrite <- app_assoc. }
      rewrite length_drop in H3.
      split.
      * intros [|i] ch' Hi; cbn in Hi.
        -- injection Hi as <-. by rewrite Nat.mul_0_l, drop_0.
        -- rewrite (H1 i ch' Hi), drop_drop. repeat f_equal; lia.
      * by constructor.
      * intros Hr. specialize (H3 Hr). cbn [length]. lia.
      * done.
      * done.
      * intros e' Hr. by destruct (H6 e' Hr) as [[=] _].
Qed.

(** Slices laid end to end are a prefix of the file. *)
Lemma slices_concat size f (cs : list bytes) :
  (∀ i ch, cs !! i = Some ch → ch = take size (drop (i * size) f)) →
  concat cs = take (length cs * size) f.
Proof.
  revert f. induction cs as [|ch cs IH]; intros f Hcs; [done|].
  cbn [concat length]. rewrite (Hcs O ch eq_refl). rewrite Nat.mul_0_l, drop_0.
  cbn [Nat.mul].
  rewrite (IH (drop size f)).
  - by rewrite take_take_drop.
  - intros i ch' Hi. rewrite (Hcs (S i) ch' Hi), drop_drop. repeat f_equal; lia.
Qed.

#[local] Arguments guess_type : simpl never.
#[local] Arguments path_join : simpl never.
#[local] Arguments lstrip : simpl never.
#[local] Arguments split_first : simpl never.
#[local] Arguments str_of_nat : simpl never.
#[local] Arguments str_of_Z : simpl never.
#[local] Arguments copy_chunks : simpl never.
#[local] Arguments CHUNK : simpl never.
#[local] Arguments StaticServer.CHUNK : simpl never.

Ltac exec :=
  repeat progress
    unfold handle, do_OPTIONS, do_GET, do_POST, do_PUT, do_DELETE,
      serve_static_file, StaticServer.do_GET, StaticServer.do_OPTIONS,
      send_error, send_cors_headers, no_body_status,
      send_response, send_response_only, send_header, end_headers,
      buffer, wfile_write, rfile_read, try_except, raise, urlopen, connect,
      mbind, M_bind, mret, M_ret;
  cbn.

(** [serve_static_file] on a file that exists, for a client that takes the
    headers: the whole connection at the end. *)
Lemma serve_static_file_sliced W path content body p p1 :
  files W (file_location W path) = Some content →
  after_head p = Some p1 →
  ∃ res cs p',
    serve_static_file W path (connect body p)
    = (Ok (),
       State []
         (Head (StatusLine 200 None ::
                map header_line (file_headers W (file_location W path) content))
          :: map Chunk cs)
         [] body p') ∧
    sliced CHUNK content p1 res cs p'.
Proof.
  intros Hfile Hp. unfold file_location in *. unfold serve_static_file.
  rewrite Hfile.
  destruct p as [[[|j] e]|]; try done; injection Hp as <-; exec.
  all: match goal with |- context [copy_chunks ?n ?f (State ?h ?w ?c ?r ?p)] =>
      destruct (copy_chunks_sliced n f h w c r p CHUNK_pos)
        as (res & cs & p' & -> & H) end.
  all: exists res, cs, p'; split; [|done].
  all: by destruct res as [[]|].
Qed.

(** The same for [do_GET] of the static file server, whose [except] lets
    other exceptions through. *)
Lemma static_do_GET_sliced W req body content p p1 :
  let location := StaticServer.translate_path W (split_first "?" (path req)) in
  StaticServer.files W location = Some content →
  after_head p = Some p1 →
  ∃ res cs p',
    StaticServer.do_GET W req (connect body p)
    = (match res with
       | Raise e => if client_gone e then Ok () else Raise e
       | Ok _ => Ok ()
       end,
       State []
         (Head (StatusLine 200 None ::
                map header_line (StaticServer.file_headers W location content))
          :: map Chunk cs)
         [] body p') ∧
    sliced StaticServer.CHUNK content p1 res cs p'.
Proof.
  cbn zeta. intros Hfile Hp. unfold StaticServer.do_GET. rewrite Hfile.
  destruct p as [[[|j] e]|]; try done; injection Hp as <-; exec.
  all: match goal with |- context [copy_chunks ?n ?f (State ?h ?w ?c ?r ?p)] =>
      destruct (copy_chunks_sliced n f h w c r p StaticFacts.static_CHUNK_pos)
        as (res & cs & p' & -> & H) end.
  all: exists res, cs, p'; split; [|done].
  all: destruct res as [[]|e']; [done|]; by destruct e'.
Qed.

(** *** What leaves the backend and the request body alone *)

Lemma keeps_ret {A} (a : A) : keeps (mret a : M A).
Proof. by intros s. Qed.

Lemma keeps_bind {A B} (m : M A) (k : A → M B) :
  keeps m → (∀ a, keeps (k a)) → keeps (m ≫= k).
Proof.
  intros Hm Hk s. unfold mbind, M_bind. specialize (Hm s).
  destruct (m s) as [[a|e] s']; cbn [snd] in *; [|done].
  destruct (Hk a s') as [-> ->]. done.
Qed.

Lemma keeps_try {A} (m : M A) (h : exn → M A) :
  keeps m → (∀ e, keeps (h e)) → keeps (try_except m h).
Proof.
  intros Hm Hh s. unfold try_except. specialize (Hm s).
  destruct (m s) as [[a|e] s']; cbn [snd] in *; [done|].
  destruct (Hh e s') as [-> ->]. done.
Qed.

Lemma keeps_buffer l : keeps (buffer l).
Proof. by intros []. Qed.

Lemma keeps_write x : keeps (wfile_write x).
Proof. by intros [h w c r [[[|j] e]|]]. Qed.

Lemma keeps_end_headers : keeps end_headers.
Proof. by intros [h w c r [[[|j] e]|]]. Qed.

Ltac keep_step :=
  first [ apply keeps_buffer | apply keeps_end_headers | apply keeps_write
        | apply keeps_ret | (apply keeps_bind; [|intros _]) ].

Lemma keeps_send_response L code msg : keeps (send_response L code msg).
Proof.
  unfold send_response, send_response_only, send_header. repeat keep_step.
Qed.

Lemma keeps_send_error L code msg : keeps (send_error L code msg).
Proof.
  unfold send_error, send_header.
  apply keeps_bind; [apply keeps_send_response|intros _].
  apply keeps_bind; [apply keeps_buffer|intros _].
  destruct (_ && _); [|apply keeps_end_headers].
  cbn zeta. do 3 keep_step; [repeat keep_step..|].
  destruct (error_page L code msg); keep_step.
Qed.

Lemma keeps_copy_chunks size f : (0 < size)%nat → keeps (copy_chunks size f).
Proof.
  intros Hsize [h w c r p].
  by destruct (copy_chunks_sliced size f h w c r p Hsize) as (res & cs & p' & -> & _).
Qed.

Lemma keeps_send_cors_headers : keeps send_cors_headers.
Proof. unfold send_cors_headers, send_header. repeat keep_step. Qed.

Lemma keeps_do_OPTIONS W : keeps (do_OPTIONS W).
Proof.
  unfold do_OPTIONS.
  apply keeps_bind; [apply keeps_send_response|intros _].
  apply keeps_bind; [apply keeps_send_cors_headers|intros _].
  apply keeps_end_headers.
Qed.

Lemma keeps_serve_static_file W path : keeps (serve_static_file W path).
Proof.
  unfold serve_static_file.
  destruct (files W _); [|apply keeps_send_error].
  apply keeps_try; [|intros _; apply keeps_ret].
  cbn zeta. unfold send_header.
  apply keeps_bind; [apply keeps_send_response|intros _].
  do 2 (apply keeps_bind; [apply keeps_buffer|intros _]).
  apply keeps_bind; [apply keeps_send_cors_headers|intros _].
  apply keeps_bind; [apply keeps_buffer|intros _].
  apply keeps_bind; [apply keeps_end_headers|intros _].
  apply keeps_copy_chunks, CHUNK_pos.
Qed.

End StreamFacts.

(** ** Query strings *)

Module QueryFacts.
Import Py Net Mimetypes PyFacts MimeFacts NetFacts Server ServerFacts.

Lemma split_first_query p q :
  contains "?" p = false → split_first "?" (p +:+ String "?" q) = p.
Proof.
  induction p as [|a p IH].
  - done.
  - rewrite append_cons. cbn. intros [Ha Hp]%orb_false_iff.
    rewrite Ha. by rewrite IH.
Qed.

Lemma split_first_plain p : contains "?" p = false → split_first "?" p = p.
Proof.
  induction p as [|a p IH]; [done|]. cbn. intros [Ha Hp]%orb_false_iff.
  rewrite Ha. by rewrite IH.
Qed.

End QueryFacts.

(** ** Header names *)

Module HeaderFacts.
Import Py Net Mimetypes PyFacts MimeFacts NetFacts Server ServerFacts.

(** Headers of one name, case apart, fall in the same classes. *)
Lemma is_header_class name h :
  is_header name h = true →
  is_cors h.1 = is_cors name ∧
  hop_by_hop h.1 = hop_by_hop name ∧
  not_forwarded h.1 = not_forwarded name.
Proof.
  unfold is_header, is_cors, hop_by_hop, not_forwarded.
  intros Hh%String.eqb_eq. by rewrite Hh.
Qed.

Lemma count_header_kept name hs :
  hop_by_hop name = false → is_cors name = false →
  count_header name (filter (λ x, copied x = true) hs) = count_header name hs.
Proof.
  intros Hhop Hcors. unfold count_header. f_equal.
  induction hs as [|h hs IH]; [done|].
  rewrite !filter_cons. destruct (decide (is_header name h = true)) as [Hh|Hh].
  - destruct (is_header_class name h Hh) as (Hc & Hp & _).
    rewrite decide_True.
    + rewrite filter_cons, decide_True by done. by rewrite IH.
    + unfold copied. by rewrite Hc, Hp, Hhop, Hcors.
  - case_decide; [|done]. by rewrite filter_cons, decide_False.
Qed.

Lemma count_header_cors name :
  is_cors name = false → count_header name cors_headers = 0%nat.
Proof.
  intros Hcors. unfold count_header, cors_headers.
  rewrite !filter_cons, filter_nil.
  repeat (rewrite decide_False;
          [|intros Hh; destruct (is_header_class name _ Hh) as (Hc & _);
            by rewrite Hcors in Hc]).
  done.
Qed.

Lemma lower_char_idemp c : lower_char (lower_char c) = lower_char c.
Proof. by destruct c as [[] [] [] [] [] [] [] []]. Qed.

Lemma lower_idemp s : lower (lower s) = lower s.
Proof. induction s as [|c s IH]; [done|]. cbn. by rewrite lower_char_idemp, IH. Qed.

Lemma lower_upper_char c : lower_char (Demo.upper_char c) = lower_char c.
Proof. by destruct c as [[] [] [] [] [] [] [] []]. Qed.

Lemma lower_demo_capitalize k : lower (Demo.capitalize k) = lower k.
Proof. destruct k as [|c k]; [done|]. cbn. by rewrite lower_upper_char, lower_idemp. Qed.

End HeaderFacts.

(** ** Edge cases of the two servers *)

Module Properties.
Import Py Net Mimetypes PyFacts MimeFacts NetFacts Server ServerFacts StreamFacts QueryFacts HeaderFacts.

(** X1. A proxied request whose [Content-Length] header is no number is
    answered with status 502 and the page [Bad Gateway: ] followed by the
    message of the [ValueError] that [int] raised, without any CORS header.
    The handler returns normally, the backend is not called and nothing of
    the request body is read. *)
Theorem malformed_length_rejected W req body v :
  command req ≠ OPTIONS →
  route (command req) (split_first "?" (path req)) = PROXY →
  headers_get "Content-Length" (headers req) = Some v →
  int_of_str W v = None →
  let msg := ("Bad Gateway: " +:+ int_message W v)%string in
  let out := handle W req (connect body None) in
  out.1 = Ok () ∧
  sent_status out.2 = [502] ∧
  sent_body out.2 = error_page (stdlib W) 502 msg ∧
  cors_each 0 out.2 ∧
  calls out.2 = [] ∧
  rfile out.2 = body.
Proof.
  intros Hm Hr Hget Hint. cbn zeta. rewrite handle_proxied by done.
  assert (Hn : declared_length W req = None).
  { unfold declared_length. by rewrite Hget. }
  destruct (proxied_malformed W req body Hn) as (v' & Hv' & H1 & H2 & H3 & H4 & H5).
  rewrite Hget in Hv'. injection Hv' as <-.
  unfold cors_each. rewrite H3. split_and!; try done.
  unfold proxy_to_php. rewrite Hget, Hint.
  unfold try_except, mbind, M_bind, raise, connect. cbn beta iota.
  by destruct (keeps_send_error (stdlib W) 502
                 ("Bad Gateway: " +:+ int_message W v) (State [] [] [] body None)).
Qed.

Lemma malformed_length_rejected_witness :
  let req := Request POST "/api/cars" [("content-length", "12a")]%string in
  POST ≠ OPTIONS ∧
  route POST "/api/cars" = PROXY ∧
  headers_get "Content-Length" (headers req) = Some "12a"%string ∧
  int_of_str Demo.world "12a" = None ∧
  calls (handle Demo.world req (connect (list_byte_of_string "[1]") None)).2 = [].
Proof.
  cbn zeta. split_and!; [done..|].
  apply (malformed_length_rejected Demo.world
           (Request POST "/api/cars" [("content-length", "12a")]%string)
           (list_byte_of_string "[1]") "12a"); done.
Defined.

(** X2. A preflight and a request routed to the static files never call the
    backend and read nothing of the request body, whatever the path, the
    headers, the disk and the client's connection are. *)
Theorem static_and_preflight_leave_backend W req body p :
  command req = OPTIONS ∨
  route (command req) (split_first "?" (path req)) = STATIC →
  let out := handle W req (connect body p) in
  calls out.2 = [] ∧ rfile out.2 = body.
Proof.
  intros H. cbn zeta.
  assert (keeps (handle W req)) as Hk.
  { destruct H as [Hm|Hr].
    - unfold handle. rewrite Hm. apply keeps_do_OPTIONS.
    - destruct (decide (command req = OPTIONS)) as [Hm|Hm].
      + unfold handle. rewrite Hm. apply keeps_do_OPTIONS.
      + rewrite handle_dispatch, Hr by done. apply keeps_serve_static_file. }
  apply (Hk (connect body p)).
Qed.

Lemma static_and_preflight_leave_backend_witness :
  let req := Request GET "/uploads/car1.webp" [("Content-Length", "3")]%string in
  route GET "/uploads/car1.webp" = STATIC ∧
  rfile (handle Demo.world req (connect (list_byte_of_string "[1]") None)).2
  = list_byte_of_string "[1]".
Proof.
  cbn zeta. split; [done|].
  apply (static_and_preflight_leave_backend Demo.world
           (Request GET "/uploads/car1.webp" [("Content-Length", "3")]%string)
           (list_byte_of_string "[1]") None).
  by right.
Defined.

(** X3. A proxied request whose [Content-Length] is the number [n]: for
    [n ≤ 0] nothing is read and the request to the backend has no body;
    when the read of [n] bytes goes through, the connection is left with
    the inbound bytes after the first [n]; when it raises, as it does for
    every [n] beyond [sys.maxsize], nothing is taken from the connection,
    the backend is not called and the answer is the 502 page for the
    exception, without CORS headers. *)
Theorem proxy_reads_declared_bytes W req body n :
  command req ≠ OPTIONS →
  route (command req) (split_first "?" (path req)) = PROXY →
  declared_length W req = Some n →
  let r := build_request W req (forwarded_body n body) in
  let out := handle W req (connect body None) in
  (n ≤ 0 → data r = None ∧ rfile out.2 = body) ∧
  (body_failure W n = None → rfile out.2 = drop (Z.to_nat n) body) ∧
  (∀ e, body_failure W n = Some e →
        rfile out.2 = body ∧
        calls out.2 = [] ∧
        sent_status out.2 = [502] ∧
        sent_body out.2
        = error_page (stdlib W) 502 ("Bad Gateway: " +:+ str_of_exn e) ∧
        cors_each 0 out.2) ∧
  (0 < n → maxsize (stdlib W) < n →
   body_failure W n
   = Some (OverflowError "cannot fit 'int' into an index-sized integer")).
Proof.
  intros Hm Hr Hn. cbn zeta. rewrite handle_proxied by done.
  assert (Hread : body_failure W n = None →
                  rfile (proxy_to_php W req (connect body None)).2
                  = drop (Z.to_nat n) body).
  { intros Hrd. rewrite (proxy_to_php_run W req body n Hn Hrd). cbn zeta.
    assert (Hrest : (if 0 <? n then drop (Z.to_nat n) body else body)
                    = drop (Z.to_nat n) body).
    { destruct (0 <? n) eqn:E; [done|].
      assert (Z.to_nat n = O) as -> by lia. done. }
    rewrite Hrest.
    destruct (backend W _) as [reason resp|f]; [done|].
    apply send_error_rfile. by right. }
  split_and!.
  - intros Hle. split.
    + destruct (build_request_fields W req (forwarded_body n body)) as (_ & -> & _).
      unfold forwarded_body. by destruct (0 <? n) eqn:E'; [lia|].
    + rewrite Hread.
      * assert (Z.to_nat n = O) as -> by lia. done.
      * unfold body_failure. by destruct (0 <? n) eqn:E'; [lia|].
  - exact Hread.
  - intros e Hrd.
    destruct (proxied_unread W req body n e Hn Hrd) as (_ & H2 & H3 & H4 & H5 & H6).
    unfold cors_each. rewrite H3. by split_and!.
  - intros Hpos Hmax. unfold body_failure, read_failure.
    assert ((0 <? n) = true) as -> by lia.
    by assert ((maxsize (stdlib W) <? n) = true) as -> by lia.
Qed.

Lemma proxy_reads_declared_bytes_witness :
  let req := Request POST "/api/cars"
               [("Content-Length", "99999999999999999999")]%string in
  let out := handle Demo.world req (connect (list_byte_of_string "[1]") None) in
  POST ≠ OPTIONS ∧
  route POST "/api/cars" = PROXY ∧
  declared_length Demo.world req = Some 99999999999999999999 ∧
  rfile out.2 = list_byte_of_string "[1]" ∧
  calls out.2 = [] ∧
  sent_status out.2 = [502].
Proof.
  cbn zeta.
  pose proof (proxy_reads_declared_bytes Demo.world
                (Request POST "/api/cars"
                   [("Content-Length", "99999999999999999999")]%string)
                (list_byte_of_string "[1]") 99999999999999999999
                ltac:(done) eq_refl eq_refl) as (_ & _ & H3 & H4).
  destruct (H3 _ (H4 ltac:(done) ltac:(done))) as (R1 & R2 & R3 & _).
  split_and!; [done..|exact R1|exact R2|exact R3].
Defined.

#[local] Arguments guess_type : simpl never.
#[local] Arguments path_join : simpl never.
#[local] Arguments lstrip : simpl never.
#[local] Arguments split_first : simpl never.
#[local] Arguments str_of_nat : simpl never.
#[local] Arguments str_of_Z : simpl never.
#[local] Arguments is_cors : simpl never.
#[local] Arguments hop_by_hop : simpl never.
#[local] Arguments copied : simpl never.
#[local] Arguments not_forwarded : simpl never.

(** A proxied request answered by the backend, for a client that is gone
    before the two writes of the response are done. *)
Lemma proxy_to_php_gone W req body n reason resp k e :
  declared_length W req = Some n →
  body_failure W n = None →
  let r := build_request W req (forwarded_body n body) in
  backend W r = Answered reason resp →
  (k < 2)%nat →
  client_gone e = true →
  let out := proxy_to_php W req (connect body (Some (k, e))) in
  out.1 = Raise e ∧
  calls out.2 = [(r, 30)] ∧
  sent_chunks out.2 = [] ∧
  attempted_status out.2
  = (if (200 <=? status resp) && (status resp <? 300)
     then [status resp; 502] else [status resp]).
Proof.
  unfold declared_length, forwarded_body, body_failure, proxy_to_php.
  intros Hn Hrd. cbn zeta. intros Hb Hk He.
  assert (Hlen :
    match headers_get "Content-Length" (headers req) with
    | Some v => match int_of_str W v with
                | Some n => mret n
                | None => raise (ValueError (int_message W v))
                end
    | None => mret 0
    end = (mret n : M Z)).
  { destruct (headers_get _ _); [by rewrite Hn|by injection Hn as <-]. }
  rewrite Hlen. clear Hlen.
  unfold try_except, mbind, mret, M_bind, M_ret. cbn beta iota zeta.
  destruct (0 <? n); unfold connect, rfile_read, urlopen; cbn beta iota zeta;
    rewrite ?Hrd; cbn beta iota zeta;
    rewrite Hb; destruct ((200 <=? status resp) && (status resp <? 300)).
  all: try (unfold send_response, send_response_only, send_header, buffer,
            mbind, M_bind; cbn beta iota zeta; rewrite relay_headers_run).
  all: destruct k as [|[|k]]; [| |lia].
  all: destruct e; try done.
  all: exec.
  all: unfold attempted_status, sent_status, sent_lines, sent_chunks; cbn.
  all: rewrite ?map_app, ?concat_app, ?statuses_of_lines; try done.
Qed.

(** X4. When the client of a proxied request that the backend answered
    (the body of the request, if it declares one, having been read) is
    gone before the response is written (at the write of the headers or at
    the write of the body), the handler does not return normally: the
    exception of the write escapes it.  The backend was called once, no byte
    of the body went out, and for a 2xx answer the handler started a second
    response, the 502 of [send_error], whose write failed as well. *)
Theorem proxied_client_gone_escapes W req body n reason resp k e :
  command req ≠ OPTIONS →
  route (command req) (split_first "?" (path req)) = PROXY →
  declared_length W req = Some n →
  body_failure W n = None →
  let r := build_request W req (forwarded_body n body) in
  backend W r = Answered reason resp →
  (k < 2)%nat →
  client_gone e = true →
  let out := handle W req (connect body (Some (k, e))) in
  out.1 = Raise e ∧
  calls out.2 = [(r, 30)] ∧
  sent_chunks out.2 = [] ∧
  attempted_status out.2
  = (if (200 <=? status resp) && (status resp <? 300)
     then [status resp; 502] else [status resp]).
Proof.
  intros Hm Hr Hn Hrd. cbn zeta. intros Hb Hk He. rewrite handle_proxied by done.
  by apply (proxy_to_php_gone W req body n reason resp k e).
Qed.

Lemma proxied_client_gone_escapes_witness :
  let req := Request POST "/api/cars" [] in
  let e := BrokenPipeError "[Errno 32] Broken pipe" in
  POST ≠ OPTIONS ∧
  route POST "/api/cars" = PROXY ∧
  declared_length Demo.world req = Some 0 ∧
  body_failure Demo.world 0 = None ∧
  backend Demo.world (build_request Demo.world req (forwarded_body 0 []))
  = Answered "Created" Demo.created ∧
  (1 < 2)%nat ∧
  client_gone e = true ∧
  (handle Demo.world req (connect [] (Some (1%nat, e)))).1 = Raise e.
Proof.
  cbn zeta. split_and!; [done|done|done|done|done|lia|done|].
  apply (proxied_client_gone_escapes Demo.world (Request POST "/api/cars" []) [] 0
           "Created" Demo.created 1 (BrokenPipeError "[Errno 32] Broken pipe"));
    try done. lia.
Defined.

(** X5. For a GET whose path before the query string starts with
    [/uploads/], the query string and the request headers have no effect:
    the handler does what [serve_static_file] does on the path without its
    query. *)
Theorem static_ignores_query_and_headers W p q hs hs' :
  contains "?" p = false →
  startswith "/uploads/" p = true →
  handle W (Request GET (p +:+ String "?" q) hs) = handle W (Request GET p hs') ∧
  handle W (Request GET p hs') = serve_static_file W p.
Proof.
  intros Hq Hp. unfold handle, do_GET. cbn [command path].
  by rewrite split_first_query, split_first_plain, Hp.
Qed.

Lemma static_ignores_query_and_headers_witness :
  contains "?" "/uploads/car1.webp" = false ∧
  startswith "/uploads/" "/uploads/car1.webp" = true ∧
  handle Demo.world (Request GET "/uploads/car1.webp?v=2" [("Accept", "*/*")]%string)
  = handle Demo.world (Request GET "/uploads/car1.webp" []).
Proof.
  split_and!; [done..|].
  apply (static_ignores_query_and_headers Demo.world "/uploads/car1.webp" "v=2"
           [("Accept", "*/*")]%string []); done.
Defined.

(** X6. The file [serve_static_file] opens is found by walking the components
    of the request path one by one from the root directory, whatever the
    number of leading separators: the join never replaces the root. *)
Theorem location_walks_from_root W path :
  resolve (file_location W path)
  = fold_left walk (components path) (resolve (API_DIR W)).
Proof.
  unfold file_location, resolve.
  rewrite components_join by apply startswith_lstrip.
  by rewrite fold_left_app, components_lstrip.
Qed.

(** X7. Among the headers the handler sets on the [Request] it hands to
    [urlopen], the entries of its header dictionary, none is named [Host]
    or [Content-Length], in any letter case, when [capitalize] changes the
    inbound header names in case only.  (What [urllib] adds of its own
    when it sends the request is not part of this statement.) *)
Theorem host_never_forwarded W req body key v :
  (∀ h, h ∈ headers req → lower (capitalize W h.1) = lower h.1) →
  req_headers (build_request W req body) !! key = Some v →
  lower key ≠ "host"%string ∧ lower key ≠ "content-length"%string.
Proof.
  intros Hcap. rewrite build_request_headers. intros Hlast.
  apply last_Some_elem_of in Hlast.
  apply list_elem_of_fmap in Hlast as ([k v'] & _ & Hin).
  apply list_elem_of_filter in Hin as [Hkey Hin].
  apply list_elem_of_filter in Hin as [Hfw Hin].
  specialize (Hcap _ Hin). cbn [fst] in *. subst key. rewrite Hcap.
  unfold not_forwarded in Hfw. apply orb_false_iff in Hfw as [H1 H2].
  split; intros E; by rewrite E in *.
Qed.

Lemma host_never_forwarded_witness :
  let req := Request POST "/api/cars"
               [("HOST", "localhost:8000"); ("x-trace", "7")]%string in
  (∀ h, h ∈ headers req → lower (capitalize Demo.world h.1) = lower h.1) ∧
  req_headers (build_request Demo.world req None) !! "X-trace"%string = Some "7"%string ∧
  lower "X-trace" ≠ "host"%string.
Proof.
  cbn zeta.
  assert (H : req_headers (build_request Demo.world
                (Request POST "/api/cars"
                   [("HOST", "localhost:8000"); ("x-trace", "7")]%string) None)
              !! "X-trace"%string = Some "7"%string) by (by vm_compute).
  assert (Hcap : ∀ h, h ∈ [("HOST", "localhost:8000"); ("x-trace", "7")]%string →
                 lower (capitalize Demo.world h.1) = lower h.1).
  { intros h Hh. apply lower_demo_capitalize. }
  split_and!; [exact Hcap|exact H|].
  exact (proj1 (host_never_forwarded Demo.world
                  (Request POST "/api/cars"
                     [("HOST", "localhost:8000"); ("x-trace", "7")]%string)
                  None _ _ Hcap H)).
Defined.

(** X8. In the response to a proxied request (its body, if it declares
    one, having been read) that the backend answered with a 2xx status, a
    header that is neither [Transfer-Encoding], [Connection]
    nor an [Access-Control-] header occurs as many times as in the backend's
    answer, on top of its occurrences among the library's [Server] and
    [Date]. *)
Theorem relayed_header_count W req body n reason resp name :
  command req ≠ OPTIONS →
  route (command req) (split_first "?" (path req)) = PROXY →
  declared_length W req = Some n →
  body_failure W n = None →
  backend W (build_request W req (forwarded_body n body)) = Answered reason resp →
  200 ≤ status resp < 300 →
  hop_by_hop name = false →
  is_cors name = false →
  let out := handle W req (connect body None) in
  count_header name (sent_headers out.2)
  = (count_header name (library_headers W)
     + count_header name (resp_headers resp))%nat.
Proof.
  intros Hm Hr Hn Hrd Hb Hs Hhop Hcors. cbn zeta. rewrite handle_proxied by done.
  destruct (proxied_answered W req body n reason resp Hn Hrd Hb) as (_ & _ & H3 & _).
  rewrite H3.
  assert ((200 <=? status resp) && (status resp <? 300) = true) as -> by lia.
  rewrite !count_header_app, count_header_kept, count_header_cors by done. lia.
Qed.

Lemma relayed_header_count_witness :
  let req := Request POST "/api/cars" [] in
  POST ≠ OPTIONS ∧
  route POST "/api/cars" = PROXY ∧
  declared_length Demo.world req = Some 0 ∧
  body_failure Demo.world 0 = None ∧
  backend Demo.world (build_request Demo.world req (forwarded_body 0 []))
  = Answered "Created" Demo.created ∧
  200 ≤ status Demo.created < 300 ∧
  hop_by_hop "Content-Type" = false ∧
  is_cors "Content-Type" = false ∧
  count_header "Content-Type"
    (sent_headers (handle Demo.world req (connect [] None)).2) = 1%nat.
Proof.
  cbn zeta.
  assert (Hs : 200 ≤ status Demo.created < 300) by (cbn; lia).
  split_and!; [first [done|cbn; lia]..|].
  exact (relayed_header_count Demo.world (Request POST "/api/cars" []) [] 0
           "Created" Demo.created "Content-Type"
           ltac:(done) eq_refl eq_refl eq_refl eq_refl Hs eq_refl eq_refl).
Defined.

(** X9. For a client that stays connected, write number [i] of the body of a
    static file is the bytes of the file from [i * 8192] up to
    [(i + 1) * 8192]; the number of writes is the least [n] with
    [n * 8192] no less than the size of the file, and an empty file gets
    the headers and no write for the body. *)
Theorem static_chunks_exact W req body content :
  command req = GET →
  startswith "/uploads/" (split_first "?" (path req)) = true →
  files W (file_location W (split_first "?" (path req))) = Some content →
  let out := handle W req (connect body None) in
  let n := length (sent_chunks out.2) in
  (∀ i ch, sent_chunks out.2 !! i = Some ch →
           ch = take CHUNK (drop (i * CHUNK) content)) ∧
  (length content ≤ n * CHUNK)%nat ∧
  (n * CHUNK < length content + CHUNK)%nat ∧
  (content = [] ↔ sent_chunks out.2 = []).
Proof.
  intros Hm Hp Hfile. cbn zeta. unfold handle, do_GET. rewrite Hm, Hp.
  destruct (serve_static_file_sliced W _ content body None None Hfile eq_refl)
    as (res & cs & p' & -> & [H1 H2 H3 H4 H5 H6]).
  destruct (H5 eq_refl) as [-> ->]. cbn [snd].
  rewrite sent_chunks_stream. specialize (H3 eq_refl).
  assert (Hlast : (length cs * CHUNK < length content + CHUNK)%nat).
  { destruct (decide (cs = [])) as [->|Hne].
    - pose proof CHUNK_pos. cbn [length]. lia.
    - destruct (exists_last Hne) as (cs' & ch & ->).
      assert (Hch : (cs' ++ [ch]) !! length cs' = Some ch).
      { by rewrite lookup_app_r, Nat.sub_diag by lia. }
      apply H1 in Hch. apply Forall_app in H2 as [_ Hne'].
      apply Forall_inv in Hne'.
      assert ((length cs' * CHUNK < length content)%nat).
      { destruct (decide (length cs' * CHUNK < length content)%nat); [done|].
        rewrite drop_ge in Hch by lia. by rewrite take_nil in Hch. }
      rewrite length_app. cbn [length]. lia. }
  split_and!; try done. split.
  - intros ->. cbn [length] in H3. destruct cs as [|ch cs]; [done|].
    apply Forall_inv in H2. specialize (H1 O ch eq_refl).
    by rewrite drop_nil, take_nil in H1.
  - intros ->. cbn [length] in H3. destruct content; [done|]. cbn in H3. lia.
Qed.

Lemma static_chunks_exact_witness :
  let req := Request GET "/uploads/car1.webp" [] in
  command req = GET ∧
  startswith "/uploads/" (split_first "?" (path req)) = true ∧
  files Demo.world (file_location Demo.world "/uploads/car1.webp") = Some Demo.car1 ∧
  (length Demo.car1
   ≤ length (sent_chunks (handle Demo.world req (connect [] None)).2) * CHUNK)%nat.
Proof.
  cbn zeta. split_and!; [done..|].
  apply (static_chunks_exact Demo.world (Request GET "/uploads/car1.webp" []) []
           Demo.car1); done.
Defined.

(** X10. When the client takes the headers and [j] more writes and every
    later write raises [e], whatever exception [e] is, [serve_static_file]
    returns normally with status 200, and what was sent of the body is the
    first [j * 8192] bytes of the file (the whole file when it is shorter),
    in at most [j] writes. *)
Theorem partial_transfer W req body content j e :
  command req = GET →
  startswith "/uploads/" (split_first "?" (path req)) = true →
  files W (file_location W (split_first "?" (path req))) = Some content →
  let out := handle W req (connect body (Some (S j, e))) in
  out.1 = Ok () ∧
  sent_status out.2 = [200] ∧
  sent_body out.2 = take (j * CHUNK) content ∧
  (length (sent_chunks out.2) ≤ j)%nat.
Proof.
  intros Hm Hp Hfile. cbn zeta. unfold handle, do_GET. rewrite Hm, Hp.
  destruct (serve_static_file_sliced W _ content body (Some (S j, e)) (Some (j, e))
              Hfile eq_refl)
    as (res & cs & p' & -> & [H1 H2 H3 H4 H5 H6]).
  cbn [fst snd].
  match goal with |- context [State [] (Head (_ :: map header_line ?hs) :: _) ?c ?r ?p] =>
    pose proof (response_view [] 200 None hs cs c r p) as (V1 & V2 & V3) end.
  cbn zeta in V1, V2, V3. unfold sent_body. rewrite V1, V3.
  rewrite (slices_concat _ _ _ H1).
  destruct res as [[]|e'].
  - specialize (H3 eq_refl). destruct (H4 j e eq_refl eq_refl) as [Hj _].
    split_and!; try done.
    rewrite !take_ge; [done|nia|lia].
  - destruct (H6 e' eq_refl) as [[= -> ->] _]. by split_and!.
Qed.

Lemma partial_transfer_witness :
  let req := Request GET "/uploads/car1.webp" [] in
  let e := ConnectionResetError "[Errno 104] Connection reset by peer" in
  command req = GET ∧
  startswith "/uploads/" (split_first "?" (path req)) = true ∧
  files Demo.world (file_location Demo.world "/uploads/car1.webp") = Some Demo.car1 ∧
  sent_body (handle Demo.world req (connect [] (Some (1%nat, e)))).2 = [].
Proof.
  cbn zeta. split_and!; [done..|].
  apply (partial_transfer Demo.world (Request GET "/uploads/car1.webp" []) []
           Demo.car1 0 (ConnectionResetError "[Errno 104] Connection reset by peer"));
    done.
Defined.

#[local] Arguments guess_type : simpl never.
#[local] Arguments path_join : simpl never.
#[local] Arguments lstrip : simpl never.
#[local] Arguments split_first : simpl never.
#[local] Arguments str_of_nat : simpl never.
#[local] Arguments str_of_Z : simpl never.
#[local] Arguments copy_chunks : simpl never.
#[local] Arguments CHUNK : simpl never.
#[local] Arguments StaticServer.CHUNK : simpl never.
#[local] Arguments is_cors : simpl never.
#[local] Arguments hop_by_hop : simpl never.
#[local] Arguments copied : simpl never.
#[local] Arguments not_forwarded : simpl never.

Lemma header_values_app name hs1 hs2 :
  header_values name (hs1 ++ hs2) = header_values name hs1 ++ header_values name hs2.
Proof. unfold header_values. by rewrite filter_app, map_app. Qed.

Lemma header_values_count name hs :
  count_header name hs = 0%nat → header_values name hs = [].
Proof.
  unfold count_header, header_values. intros H.
  by rewrite (nil_length_inv _ H).
Qed.

Lemma header_values_library W name :
  is_cors name = true → header_values name (library_headers W) = [].
Proof.
  intros Hname. apply header_values_count. unfold count_header, library_headers.
  rewrite !filter_cons, filter_nil.
  rewrite !decide_False; [done|..];
    intros Hh; by apply (is_header_cors _ _ Hname) in Hh.
Qed.

(** X11. In the static file server the headers are written outside the [try]
    block: when that write fails, with [BrokenPipeError] as with any other
    exception, the exception escapes [do_GET] and nothing was sent. *)
Theorem static_head_failure_escapes W req body content e :
  StaticServer.files W
    (StaticServer.translate_path W (split_first "?" (path req))) = Some content →
  let out := StaticServer.do_GET W req (connect body (Some (0%nat, e))) in
  out.1 = Raise e ∧ wfile out.2 = [] ∧ sent_body out.2 = [].
Proof.
  intros Hfile. cbn zeta. unfold StaticServer.do_GET. rewrite Hfile. by exec.
Qed.

Lemma static_head_failure_escapes_witness :
  let req := Request GET "/uploads/car1.webp" [] in
  StaticServer.files Demo.static_world
    (StaticServer.translate_path Demo.static_world "/uploads/car1.webp")
  = Some Demo.car1 ∧
  (StaticServer.do_GET Demo.static_world req
     (connect [] (Some (0%nat, BrokenPipeError "[Errno 32] Broken pipe")))).1
  = Raise (BrokenPipeError "[Errno 32] Broken pipe").
Proof.
  cbn zeta. split; [done|].
  apply (static_head_failure_escapes Demo.static_world
           (Request GET "/uploads/car1.webp" []) [] Demo.car1
           (BrokenPipeError "[Errno 32] Broken pipe")); done.
Defined.

(** X12. In the static file server, when the client takes the headers and [j]
    chunks and the next write raises [e] while some of the file is still to
    be sent, [do_GET] returns normally if [e] is a [BrokenPipeError] or a
    [ConnectionResetError] and raises [e] otherwise.  Either way status 200
    and exactly [j] chunks, the first [j * 65536] bytes of the file, were
    sent. *)
Theorem static_stream_failure W req body content j e :
  StaticServer.files W
    (StaticServer.translate_path W (split_first "?" (path req))) = Some content →
  (j * StaticServer.CHUNK < length content)%nat →
  let out := StaticServer.do_GET W req (connect body (Some (S j, e))) in
  out.1 = (if client_gone e then Ok () else Raise e) ∧
  sent_status out.2 = [200] ∧
  length (sent_chunks out.2) = j ∧
  sent_body out.2 = take (j * StaticServer.CHUNK) content.
Proof.
  intros Hfile Hj. cbn zeta.
  destruct (static_do_GET_sliced W req body content (Some (S j, e)) (Some (j, e))
              Hfile eq_refl)
    as (res & cs & p' & -> & [H1 H2 H3 H4 H5 H6]).
  cbn [fst snd].
  match goal with |- context [State [] (Head (_ :: map header_line ?hs) :: _) ?c ?r ?p] =>
    pose proof (response_view [] 200 None hs cs c r p) as (V1 & V2 & V3) end.
  cbn zeta in V1, V2, V3. unfold sent_body. rewrite V1, V3.
  rewrite (slices_concat _ _ _ H1).
  destruct res as [[]|e'].
  - specialize (H3 eq_refl). destruct (H4 j e eq_refl eq_refl) as [Hle _]. nia.
  - destruct (H6 e' eq_refl) as [[= -> ->] _]. done.
Qed.

Lemma static_stream_failure_witness :
  let req := Request GET "/uploads/car1.webp" [] in
  let e := TimeoutError "timed out" in
  StaticServer.files Demo.static_world
    (StaticServer.translate_path Demo.static_world "/uploads/car1.webp")
  = Some Demo.car1 ∧
  (0 * StaticServer.CHUNK < length Demo.car1)%nat ∧
  (StaticServer.do_GET Demo.static_world req (connect [] (Some (1%nat, e)))).1
  = Raise e.
Proof.
  cbn zeta.
  assert (Hj : (0 * StaticServer.CHUNK < length Demo.car1)%nat) by (cbn; lia).
  split_and!; [done|exact Hj|].
  exact (proj1 (static_stream_failure Demo.static_world
                  (Request GET "/uploads/car1.webp" []) [] Demo.car1 0
                  (TimeoutError "timed out") eq_refl Hj)).
Defined.

(** X13. Whatever [Access-Control-] headers the answer of the backend
    carries, whatever its status, the response to the proxied request
    (its body, if it declares one, having been read) has under each [Access-Control-] name the values of the proxy's own three
    headers and nothing else. *)
Theorem backend_cors_replaced W req body n reason resp name :
  command req ≠ OPTIONS →
  route (command req) (split_first "?" (path req)) = PROXY →
  declared_length W req = Some n →
  body_failure W n = None →
  backend W (build_request W req (forwarded_body n body)) = Answered reason resp →
  is_cors name = true →
  let out := handle W req (connect body None) in
  header_values name (sent_headers out.2) = header_values name cors_headers.
Proof.
  intros Hm Hr Hn Hrd Hb Hname. cbn zeta. rewrite handle_proxied by done.
  destruct (proxied_answered W req body n reason resp Hn Hrd Hb) as (_ & _ & H3 & _).
  rewrite H3, !header_values_app, header_values_library by done.
  destruct ((200 <=? status resp) && (status resp <? 300)); [|done].
  by rewrite (header_values_count _ _ (count_header_copied _ _ Hname)).
Qed.

Lemma backend_cors_replaced_witness :
  let req := Request POST "/api/cars" [] in
  POST ≠ OPTIONS ∧
  route POST "/api/cars" = PROXY ∧
  declared_length Demo.world req = Some 0 ∧
  body_failure Demo.world 0 = None ∧
  backend Demo.world (build_request Demo.world req (forwarded_body 0 []))
  = Answered "Created" Demo.created ∧
  is_cors "Access-Control-Allow-Origin" = true ∧
  header_values "Access-Control-Allow-Origin"
    (sent_headers (handle Demo.world req (connect [] None)).2) = ["*"%string].
Proof.
  cbn zeta. split_and!; [done..|].
  exact (backend_cors_replaced Demo.world (Request POST "/api/cars" []) [] 0
           "Created" Demo.created "Access-Control-Allow-Origin"
           ltac:(done) eq_refl eq_refl eq_refl eq_refl eq_refl).
Defined.

(** X14. The 404 for a missing upload is sent outside any [try] block: when
    the client is gone the exception of the write escapes the handler,
    after the 404 was put together and with nothing sent. *)
Theorem missing_file_client_gone W req body e :
  command req = GET →
  startswith "/uploads/" (split_first "?" (path req)) = true →
  files W (file_location W (split_first "?" (path req))) = None →
  let out := handle W req (connect body (Some (0%nat, e))) in
  out.1 = Raise e ∧ wfile out.2 = [] ∧ attempted_status out.2 = [404].
Proof.
  intros Hm Hp Hfile. cbn zeta. unfold handle, do_GET. rewrite Hm, Hp.
  unfold file_location in Hfile. unfold serve_static_file. rewrite Hfile.
  by exec.
Qed.

Lemma missing_file_client_gone_witness :
  let req := Request GET "/uploads/missing.jpg" [] in
  let e := BrokenPipeError "[Errno 32] Broken pipe" in
  command req = GET ∧
  startswith "/uploads/" (split_first "?" (path req)) = true ∧
  files Demo.world (file_location Demo.world (split_first "?" (path req))) = None ∧
  (handle Demo.world req (connect [] (Some (0%nat, e)))).1 = Raise e.
Proof.
  cbn zeta. split_and!; [done..|].
  exact (proj1 (missing_file_client_gone Demo.world
                  (Request GET "/uploads/missing.jpg" []) []
                  (BrokenPipeError "[Errno 32] Broken pipe")
                  eq_refl eq_refl eq_refl)).
Defined.

End Properties.
